(** * The Datadog provider bootstrap (datadog/provider.go)

    A shallow embedding of [providerConfigure], [translateClientError] and
    [getUserAgent], with the parts of Go's [strings], [fmt], [context] and
    [net/url] packages that these functions go through. *)

From Stdlib Require Import String Ascii List Bool Arith Lia.
From stdpp Require Import base option gmap strings.

Open Scope string_scope.
Open Scope list_scope.

Arguments String.append !s1 s2 : simpl nomatch.

(** ** Go strings *)

Module strings.

(** [strings.Split(s, sep)] for a one-byte separator: the pieces between the
    separators, so one more piece than there are separators (never empty). *)
Fixpoint Split (s : string) (sep : ascii) : list string :=
  match s with
  | EmptyString => [EmptyString]
  | String c rest =>
      if Ascii.eqb c sep then EmptyString :: Split rest sep
      else match Split rest sep with
           | piece :: pieces => String c piece :: pieces
           | [] => [String c EmptyString]
           end
  end.

(** [strings.Join(elems, sep)]. *)
Fixpoint Join (elems : list string) (sep : string) : string :=
  match elems with
  | [] => EmptyString
  | [e] => e
  | e :: more => e +:+ sep +:+ Join more sep
  end.

(** [strings.LastIndexByte(s, c)]; [None] stands for Go's -1. *)
Fixpoint LastIndexByte (s : string) (c : ascii) : option nat :=
  match s with
  | EmptyString => None
  | String a rest =>
      match LastIndexByte rest c with
      | Some i => Some (S i)
      | None => if Ascii.eqb a c then Some 0 else None
      end
  end.

Definition HasPrefix (s p : string) : bool := String.prefix p s.

Definition HasSuffix (s p : string) : bool :=
  Nat.leb (String.length p) (String.length s) &&
  String.eqb (String.substring (String.length s - String.length p) (String.length p) s) p.

(** [strings.Contains(s, substr)]. *)
Fixpoint Contains (s substr : string) : bool :=
  String.prefix substr s ||
  match s with
  | EmptyString => false
  | String _ rest => Contains rest substr
  end.

(** [strings.IndexByte(s, c) >= 0]. *)
Fixpoint ContainsByte (s : string) (c : ascii) : bool :=
  match s with
  | EmptyString => false
  | String a rest => Ascii.eqb a c || ContainsByte rest c
  end.

(** The number of occurrences of a byte, [strings.Count]. *)
Fixpoint CountByte (s : string) (c : ascii) : nat :=
  match s with
  | EmptyString => 0
  | String a rest => (if Ascii.eqb a c then 1 else 0) + CountByte rest c
  end.

End strings.

(** Go's slice expressions [s[:i]] and [s[i:]] on strings. *)
Definition slice_to (s : string) (i : nat) : string := String.substring 0 i s.
Definition slice_from (s : string) (i : nat) : string :=
  String.substring i (String.length s - i) s.

(** ** Go errors

    An [error] is an interface value; [translateClientError] looks at its
    dynamic type, so the model keeps one constructor per dynamic type that the
    code distinguishes, each with the text its [Error] method returns. *)
Inductive error : Type :=
  | errorString (text : string)                          (* errors.New, fmt.Errorf *)
  | url_Error (text : string)                            (* *url.Error *)
  | V1_GenericOpenAPIError (text : string) (body : string) (* datadogV1.GenericOpenAPIError *)
  | V2_GenericOpenAPIError (text : string) (body : string) (* datadogV2.GenericOpenAPIError *)
  | otherError (text : string).                          (* any other dynamic type *)

Definition Error (e : error) : string :=
  match e with
  | errorString t | url_Error t | otherError t => t
  | V1_GenericOpenAPIError t _ | V2_GenericOpenAPIError t _ => t
  end.

(** ** Go fmt

    The operands that the provider hands to [fmt]: strings, errors and the
    byte slice returned by [Body()]. *)
Inductive Arg : Type :=
  | AString (s : string)
  | AError (e : error)
  | ABytes (b : string).

Inductive Verb : Type := verb_s | verb_v.

Definition digit (n : nat) : ascii := ascii_of_nat (48 + n).

(** A byte in decimal, as [%v] and [%d] print the elements of a byte slice. *)
Definition fmtUint8 (c : ascii) : string :=
  let n := nat_of_ascii c in
  if Nat.ltb n 10 then String (digit n) EmptyString
  else if Nat.ltb n 100 then String (digit (n / 10)) (String (digit (n mod 10)) EmptyString)
  else String (digit (n / 100))
         (String (digit ((n / 10) mod 10)) (String (digit (n mod 10)) EmptyString)).

(** [printArg]: [%s] and [%v] print a string as it is and an error through its
    [Error] method; a byte slice is printed as text by [%s] and as a bracketed
    list of decimal numbers by [%v]. *)
Definition printArg (v : Verb) (a : Arg) : string :=
  match a with
  | AString s => s
  | AError e => Error e
  | ABytes b =>
      match v with
      | verb_s => b
      | verb_v => "[" +:+ strings.Join (map fmtUint8 (list_ascii_of_string b)) " " +:+ "]"
      end
  end.

Definition verbChar (v : Verb) : string :=
  match v with verb_s => "s" | verb_v => "v" end.

(** ** Results and the bootstrap monad

    [providerConfigure] returns [(interface{}, error)], logs, and calls the
    remote service once to validate the keys: a computation yields the events
    it performed, in order, with its result or the error it stopped at. *)
Inductive Result (A : Type) : Type :=
  | Ok (a : A)
  | Err (e : error).
Arguments Ok {A} a.
Arguments Err {A} e.

(** ** net/url *)

(** The fields of [url.URL] that a parse of an [api_url] fills. *)
Record URL : Type := mkURL {
  Scheme : string; Opaque : string; Host : string; Path : string }.

Definition isDigit (c : ascii) : bool :=
  Nat.leb 48 (nat_of_ascii c) && Nat.leb (nat_of_ascii c) 57.

Fixpoint allDigits (s : string) : bool :=
  match s with
  | EmptyString => true
  | String c rest => isDigit c && allDigits rest
  end.

(** [validOptionalPort]: empty, or a colon followed by digits only. *)
Definition validOptionalPort (port : string) : bool :=
  match port with
  | EmptyString => true
  | String c rest => Ascii.eqb c ":" && allDigits rest
  end.

(** The square brackets of an IPv6 literal are taken off: [host[1:len(host)-1]]. *)
Definition stripBrackets (host : string) : string :=
  if strings.HasPrefix host "[" && strings.HasSuffix host "]"
  then String.substring 1 (String.length host - 2) host
  else host.

(** [splitHostPort]: cuts a valid port off at the last colon, then takes the
    square brackets off. *)
Definition splitHostPort (hostport : string) : string * string :=
  let '(host, port) :=
    match strings.LastIndexByte hostport ":" with
    | Some colon =>
        if validOptionalPort (slice_from hostport colon)
        then (slice_to hostport colon, slice_from hostport (colon + 1))
        else (hostport, EmptyString)
    | None => (hostport, EmptyString)
    end in
  (stripBrackets host, port).

(** The [Hostname] method of [URL]: the host without a port. *)
Definition Hostname (u : URL) : string := fst (splitHostPort (Host u)).

(** ** context

    [context.WithValue] puts a binding in front of its parent; [Value] finds
    the nearest binding of a key. *)
Inductive ContextKey : Type :=
  | ContextAPIKeys
  | ContextServerIndex
  | ContextServerVariables
  | ContextOperationServerIndices
  | ContextOperationServerVariables.

Record APIKey : Type := mkAPIKey { Key : string; Prefix : string }.

Inductive ContextValue : Type :=
  | APIKeysValue (m : gmap string APIKey)
  | IntValue (n : nat)
  | VariablesValue (m : gmap string string)
  | IndicesValue (m : gmap string nat)
  | OperationVariablesValue (m : gmap string (gmap string string)).

Definition ContextKey_eqb (a b : ContextKey) : bool :=
  match a, b with
  | ContextAPIKeys, ContextAPIKeys
  | ContextServerIndex, ContextServerIndex
  | ContextServerVariables, ContextServerVariables
  | ContextOperationServerIndices, ContextOperationServerIndices
  | ContextOperationServerVariables, ContextOperationServerVariables => true
  | _, _ => false
  end.

Definition Context : Type := list (ContextKey * ContextValue).

Definition Background : Context := [].

Definition WithValue (parent : Context) (k : ContextKey) (v : ContextValue) : Context :=
  (k, v) :: parent.

Fixpoint Value (ctx : Context) (k : ContextKey) : option ContextValue :=
  match ctx with
  | [] => None
  | (k', v) :: parent => if ContextKey_eqb k' k then Some v else Value parent k
  end.

(** ** The clients *)

Inductive Transport : Type :=
  | defaultTransport                                       (* http.DefaultClient's *)
  | pooledTransport                                        (* cleanhttp's *)
  | loggingTransport (name : string) (inner : Transport).   (* logging.NewTransport *)

Record http_Client : Type := mkHttpClient { clientTransport : Transport }.

(** The legacy client of go-datadog-api. *)
Record Client : Type := mkClient {
  clientApiKey : string; clientAppKey : string; baseUrl : string;
  ExtraHeader : gmap string string;
  HttpClient : http_Client }.

(** The configuration of a current-generation client; the v1 and the v2
    package declare the same structure. *)
Record Configuration : Type := mkConfiguration {
  UserAgent : string; Debug : bool;
  Servers : list string;
  unstableOperations : gmap string bool }.

Record APIClient : Type := mkAPIClient { GetConfig : Configuration }.

Definition NewAPIClient (c : Configuration) : APIClient := mkAPIClient c.

Definition SetUnstableOperationEnabled (c : Configuration) (operation : string)
    (enabled : bool) : Configuration :=
  match unstableOperations c !! operation with
  | Some _ =>
      mkConfiguration (UserAgent c) (Debug c) (Servers c)
        (<[operation := enabled]> (unstableOperations c))
  | None => c
  end.

Inductive TimeSource : Type := time_Now.

(** [ProviderConfiguration] contains the initialized API clients. *)
Record ProviderConfiguration : Type := mkProviderConfiguration {
  CommunityClient : Client;
  DatadogClientV1 : APIClient;
  DatadogClientV2 : APIClient;
  AuthV1 : Context;
  AuthV2 : Context;
  now : TimeSource }.

(** The four options of the provider schema, as [d.Get] returns them. *)
Record ResourceData : Type := mkResourceData {
  api_key : string; app_key : string; api_url : string; validate : bool }.

Inductive Event : Type :=
  | LogLine (line : string)
  | ValidateCall (c : Client).     (* the round trip of communityClient.Validate *)

Definition M (A : Type) : Type := (list Event * Result A)%type.

Definition fail {A} (e : error) : M A := ([], Err e).
Definition emit (ev : Event) : M unit := ([ev], Ok tt).

#[global] Instance M_ret : MRet M := fun A a => ([], Ok a).

#[global] Instance M_bind : MBind M := fun A B k m =>
  match m with
  | (t, Ok a) => let '(t', r) := k a in (t ++ t', r)
  | (t, Err e) => (t, Err e)
  end.

Definition isNetwork (ev : Event) : bool :=
  match ev with ValidateCall _ => true | LogLine _ => false end.

(** The number of network round trips in a trace. *)
Definition networkCalls (t : list Event) : nat := length (filter isNetwork t).

(** ** The environment

    What [providerConfigure] reads from outside its own file: the version
    strings, the Go runtime, the log level, the defaults of the client
    libraries, the remote service behind [Validate], [url.Parse], and the
    part of [fmt] that the model above leaves out (flags, widths, indexes,
    verbs other than [%s], [%v] and [%%], the [EXTRA] report of unused
    operands: what is printed from such a point on, given the rest of the
    format, all the operands and the index of the next operand). *)
Record Env : Type := mkEnv {
  version_ProviderVersion : string;
  meta_SDKVersionString : string;
  TerraformVersion : string;
  runtime_Version : string; runtime_GOOS : string; runtime_GOARCH : string;
  logging_IsDebugOrHigher : bool;
  datadogV1_NewConfiguration : Configuration;
  datadogV2_NewConfiguration : Configuration;
  datadogCommunity_baseUrl : string;
  datadogCommunity_Validate : Client -> bool * option error;
  url_Parse : string -> Result URL;
  fmt_other : string -> list Arg -> nat -> string }.

(** ** The provider, over an environment *)

Section Provider.

Variable E : Env.

Definition extraArgs (a : list Arg) (argNum : nat) : string :=
  if Nat.ltb argNum (length a) then fmt_other E EmptyString a argNum else EmptyString.

Definition printVerb (v : Verb) (a : list Arg) (argNum : nat) : string * nat :=
  match nth_error a argNum with
  | Some x => (printArg v x, S argNum)
  | None => ("%!" +:+ verbChar v +:+ "(MISSING)", argNum)
  end.

(** The loop of [doPrintf]: text up to the next [%] is copied; [%%] prints a
    percent sign; [%s] and [%v] print the next operand, or a [MISSING] note
    when the operands are used up; a format that ends in [%] prints
    [NOVERB]. *)
Fixpoint doPrintf (format : string) (a : list Arg) (argNum : nat) : string :=
  match format with
  | EmptyString => extraArgs a argNum
  | String c rest =>
      if Ascii.eqb c "%" then
        match rest with
        | EmptyString => "%!(NOVERB)" +:+ extraArgs a argNum
        | String d rest' =>
            if Ascii.eqb d "%" then String "%" (doPrintf rest' a argNum)
            else if Ascii.eqb d "s" then
              let '(out, n) := printVerb verb_s a argNum in out +:+ doPrintf rest' a n
            else if Ascii.eqb d "v" then
              let '(out, n) := printVerb verb_v a argNum in out +:+ doPrintf rest' a n
            else fmt_other E format a argNum
        end
      else String c (doPrintf rest a argNum)
  end.

Definition Sprintf (format : string) (a : list Arg) : string := doPrintf format a 0.

Definition Errorf (format : string) (a : list Arg) : error :=
  errorString (Sprintf format a).

Definition errors_New (text : string) : error := errorString text.

Definition liftResult {A} (r : Result A) : M A := ([], r).

Definition baseIpRangesSubdomain : string := "ip-ranges".

(** [getUserAgent], lines 285-291. *)
Definition getUserAgent (clientUserAgent : string) : string :=
  Sprintf "terraform-provider-datadog/%s (terraform %s; terraform-cli %s) %s"
    [AString (version_ProviderVersion E); AString (meta_SDKVersionString E);
     AString (TerraformVersion E); AString clientUserAgent].

(** [datadogCommunity.NewClient] and the setters used on the legacy client. *)
Definition NewClient (apiKey appKey : string) : Client :=
  mkClient apiKey appKey (datadogCommunity_baseUrl E) ∅ (mkHttpClient defaultTransport).

Definition SetBaseUrl (c : Client) (url : string) : Client :=
  mkClient (clientApiKey c) (clientAppKey c) url (ExtraHeader c) (HttpClient c).

Definition setExtraHeader (c : Client) (name value : string) : Client :=
  mkClient (clientApiKey c) (clientAppKey c) (baseUrl c)
    (<[name := value]> (ExtraHeader c)) (HttpClient c).

Definition setHttpClient (c : Client) (h : http_Client) : Client :=
  mkClient (clientApiKey c) (clientAppKey c) (baseUrl c) (ExtraHeader c) h.

Definition setUserAgent (c : Configuration) (ua : string) : Configuration :=
  mkConfiguration ua (Debug c) (Servers c) (unstableOperations c).

Definition setDebug (c : Configuration) (b : bool) : Configuration :=
  mkConfiguration (UserAgent c) b (Servers c) (unstableOperations c).

Definition cleanhttp_DefaultClient : http_Client := mkHttpClient pooledTransport.

Definition invalidCredentials : string :=
  "Invalid or missing credentials provided to the Datadog Provider. Please confirm your API and APP keys are valid and are for the correct region, see https://www.terraform.io/docs/providers/datadog/ for more information on providing credentials for the Datadog Provider".

(** Lines 149-163 of [providerConfigure]: the validation of the keys through
    the legacy client. *)
Definition validateKeys (validate : bool) (communityClient : Client) : M unit :=
  (if validate then
     emit (LogLine "[INFO] Datadog client successfully initialized, now validating...");;
     emit (ValidateCall communityClient);;
     match datadogCommunity_Validate E communityClient with
     | (_, Some err) =>
         emit (LogLine (Sprintf "[ERROR] Datadog Client validation error: %v" [AError err]));;
         fail err
     | (ok, None) =>
         if negb ok then
           let err := errors_New invalidCredentials in
           emit (LogLine (Sprintf "[ERROR] Datadog Client validation error: %v" [AError err]));;
           fail err
         else mret tt
     end
   else emit (LogLine "[INFO] Skipping key validation (validate = false)"));;
  emit (LogLine "[INFO] Datadog Client successfully validated.").

(** Lines 203-208 and 215: the host of the IP ranges service. *)
Definition ipRangesName (hostname : string) : string :=
  let ipRangesDNSNameArr := strings.Split hostname "." in
  let ipRangesDNSNameArr :=
    if Nat.ltb 2 (length ipRangesDNSNameArr) then tail ipRangesDNSNameArr
    else ipRangesDNSNameArr in
  let ipRangesDNSNameArr := baseIpRangesSubdomain :: ipRangesDNSNameArr in
  strings.Join ipRangesDNSNameArr ".".

(** Lines 186-218: the [api_url] of the v1 client. *)
Definition serverOverrideV1 (apiURL : string) (authV1 : Context) : Result Context :=
  if negb (String.eqb apiURL "") then
    match url_Parse E apiURL with
    | Err parseErr => Err (Errorf "invalid API Url : %v" [AError parseErr])
    | Ok parsedApiUrl =>
        if String.eqb (Host parsedApiUrl) "" || String.eqb (Scheme parsedApiUrl) "" then
          Err (Errorf "missing protocol or host : %v" [AString apiURL])
        else
          let authV1 := WithValue authV1 ContextServerIndex (IntValue 1) in
          let authV1 := WithValue authV1 ContextServerVariables
            (VariablesValue {[ "name" := Host parsedApiUrl;
                               "protocol" := Scheme parsedApiUrl ]}) in
          let authV1 := WithValue authV1 ContextOperationServerIndices
            (IndicesValue {[ "IPRangesApiService.GetIPRanges" := 1 ]}) in
          let authV1 := WithValue authV1 ContextOperationServerVariables
            (OperationVariablesValue
               {[ "IPRangesApiService.GetIPRanges" :=
                    {[ "name" := ipRangesName (Hostname parsedApiUrl) ]} ]}) in
          Ok authV1
    end
  else Ok authV1.

(** Lines 238-252: the [api_url] of the v2 client. *)
Definition serverOverrideV2 (apiURL : string) (authV2 : Context) : Result Context :=
  if negb (String.eqb apiURL "") then
    match url_Parse E apiURL with
    | Err parseErr => Err (Errorf "invalid API Url : %v" [AError parseErr])
    | Ok parsedApiUrl =>
        if String.eqb (Host parsedApiUrl) "" || String.eqb (Scheme parsedApiUrl) "" then
          Err (Errorf "missing protocol or host : %v" [AString apiURL])
        else
          let authV2 := WithValue authV2 ContextServerIndex (IntValue 1) in
          let authV2 := WithValue authV2 ContextServerVariables
            (VariablesValue {[ "name" := Host parsedApiUrl;
                               "protocol" := Scheme parsedApiUrl ]}) in
          Ok authV2
    end
  else Ok authV2.

Definition apiKeys (apiKey appKey : string) : ContextValue :=
  APIKeysValue {[ "apiKeyAuth" := mkAPIKey apiKey ""; "appKeyAuth" := mkAPIKey appKey "" ]}.

(** The user agent that the provider wraps for the legacy client,
    lines 140-146. *)
Definition communityUserAgent : string :=
  Sprintf "datadog-api-client-go/%s (go %s; os %s; arch %s)"
    [AString "go-datadog-api"; AString (runtime_Version E);
     AString (runtime_GOOS E); AString (runtime_GOARCH E)].

(** [providerConfigure], lines 122-265. *)
Definition providerConfigure (d : ResourceData) : M ProviderConfiguration :=
  let apiKey := api_key d in
  let appKey := app_key d in
  let validate := validate d in
  if validate && (String.eqb apiKey "" || String.eqb appKey "") then
    fail (errors_New "api_key and app_key must be set unless validate = false")
  else
    (* Initialize the community client *)
    let communityClient := NewClient apiKey appKey in
    let communityClient :=
      if negb (String.eqb (api_url d) "") then SetBaseUrl communityClient (api_url d)
      else communityClient in
    let c := cleanhttp_DefaultClient in
    let c := mkHttpClient (loggingTransport "Datadog" (clientTransport c)) in
    let communityClient :=
      setExtraHeader communityClient "User-Agent" (getUserAgent communityUserAgent) in
    let communityClient := setHttpClient communityClient c in
    validateKeys validate communityClient;;
    (* Initialize the official Datadog V1 API client *)
    let authV1 := WithValue Background ContextAPIKeys (apiKeys apiKey appKey) in
    let configV1 := datadogV1_NewConfiguration E in
    let configV1 := SetUnstableOperationEnabled configV1 "GetLogsIndex" true in
    let configV1 := SetUnstableOperationEnabled configV1 "ListLogIndexes" true in
    let configV1 := SetUnstableOperationEnabled configV1 "UpdateLogsIndex" true in
    let configV1 := SetUnstableOperationEnabled configV1 "UpdateLogsIndexOrder" true in
    let configV1 := setUserAgent configV1 (getUserAgent (UserAgent configV1)) in
    let configV1 := setDebug configV1 (logging_IsDebugOrHigher E) in
    authV1 ← liftResult (serverOverrideV1 (api_url d) authV1);
    let datadogClientV1 := NewAPIClient configV1 in
    (* Initialize the official Datadog V2 API client *)
    let authV2 := WithValue Background ContextAPIKeys (apiKeys (api_key d) (app_key d)) in
    let configV2 := datadogV2_NewConfiguration E in
    let configV2 := setUserAgent configV2 (getUserAgent (UserAgent configV2)) in
    let configV2 := setDebug configV2 (logging_IsDebugOrHigher E) in
    authV2 ← liftResult (serverOverrideV2 (api_url d) authV2);
    let datadogClientV2 := NewAPIClient configV2 in
    mret (mkProviderConfiguration communityClient datadogClientV1 datadogClientV2
            authV1 authV2 time_Now).

(** [translateClientError], lines 267-283. *)
Definition translateClientError (err : error) (msg : string) : error :=
  let msg := if String.eqb msg "" then "an error occurred" else msg in
  match err with
  | V1_GenericOpenAPIError _ body =>
      Errorf (msg +:+ ": %v: %s") [AError err; ABytes body]
  | V2_GenericOpenAPIError _ body =>
      Errorf (msg +:+ ": %v: %s") [AError err; ABytes body]
  | url_Error _ =>
      Errorf (msg +:+ " (url.Error): %s") [AError err]
  | _ => Errorf (msg +:+ ": %s") [AString (Error err)]
  end.

(** *** Views of [providerConfigure], used to state its properties *)

(** The check of line 127. *)
Definition guard (d : ResourceData) : bool :=
  validate d && (String.eqb (api_key d) "" || String.eqb (app_key d) "").

(** The legacy client as lines 132-147 build it. *)
Definition communityClientOf (d : ResourceData) : Client :=
  let communityClient := NewClient (api_key d) (app_key d) in
  let communityClient :=
    if negb (String.eqb (api_url d) "") then SetBaseUrl communityClient (api_url d)
    else communityClient in
  let communityClient :=
    setExtraHeader communityClient "User-Agent" (getUserAgent communityUserAgent) in
  setHttpClient communityClient
    (mkHttpClient (loggingTransport "Datadog" (clientTransport cleanhttp_DefaultClient))).

(** The context that carries the keys, lines 166-177 and 223-234. *)
Definition authKeys (d : ResourceData) : Context :=
  WithValue Background ContextAPIKeys (apiKeys (api_key d) (app_key d)).

(** The configurations as lines 178-185 and 235-237 build them. *)
Definition configV1Of : Configuration :=
  let configV1 := datadogV1_NewConfiguration E in
  let configV1 := SetUnstableOperationEnabled configV1 "GetLogsIndex" true in
  let configV1 := SetUnstableOperationEnabled configV1 "ListLogIndexes" true in
  let configV1 := SetUnstableOperationEnabled configV1 "UpdateLogsIndex" true in
  let configV1 := SetUnstableOperationEnabled configV1 "UpdateLogsIndexOrder" true in
  let configV1 := setUserAgent configV1 (getUserAgent (UserAgent configV1)) in
  setDebug configV1 (logging_IsDebugOrHigher E).

Definition configV2Of : Configuration :=
  let configV2 := datadogV2_NewConfiguration E in
  let configV2 := setUserAgent configV2 (getUserAgent (UserAgent configV2)) in
  setDebug configV2 (logging_IsDebugOrHigher E).

(** The outcome of lines 165-264, which perform no event. *)
Definition officialClients (d : ResourceData) : Result ProviderConfiguration :=
  match serverOverrideV1 (api_url d) (authKeys d) with
  | Err e => Err e
  | Ok authV1 =>
      match serverOverrideV2 (api_url d) (authKeys d) with
      | Err e => Err e
      | Ok authV2 =>
          Ok (mkProviderConfiguration (communityClientOf d) (NewAPIClient configV1Of)
                (NewAPIClient configV2Of) authV1 authV2 time_Now)
      end
  end.

(** The identity string without the wrapped client agent. *)
Definition userAgentPrefix : string :=
  "terraform-provider-datadog/" +:+ version_ProviderVersion E +:+
  " (terraform " +:+ meta_SDKVersionString E +:+
  "; terraform-cli " +:+ TerraformVersion E +:+ ") ".

End Provider.

(** ** An environment to run the provider in

    [parseURL] follows [url.Parse] for an [api_url] without fragment, query,
    user information and escapes: the scheme is split off by [getscheme], a
    rest that does not start with a slash is opaque after a scheme and a path
    otherwise (which must not hold a colon in its first segment), and a rest
    that starts with two slashes has its authority, up to the next slash, as
    host. *)
Module Sample.

Inductive SchemeScan : Type :=
  | NoScheme
  | MissingScheme
  | SchemeEnds (i : nat).

Definition isLetter (c : ascii) : bool :=
  let n := nat_of_ascii c in
  (Nat.leb 97 n && Nat.leb n 122) || (Nat.leb 65 n && Nat.leb n 90).

Fixpoint scanScheme (i : nat) (s : string) : SchemeScan :=
  match s with
  | EmptyString => NoScheme
  | String c rest =>
      if isLetter c then scanScheme (S i) rest
      else if isDigit c || Ascii.eqb c "+" || Ascii.eqb c "-" || Ascii.eqb c "." then
        match i with 0 => NoScheme | _ => scanScheme (S i) rest end
      else if Ascii.eqb c ":" then
        match i with 0 => MissingScheme | _ => SchemeEnds i end
      else NoScheme
  end.

Definition getscheme (rawurl : string) : Result (string * string) :=
  match scanScheme 0 rawurl with
  | NoScheme => Ok (EmptyString, rawurl)
  | MissingScheme => Err (errors_New "missing protocol scheme")
  | SchemeEnds i => Ok (slice_to rawurl i, slice_from rawurl (i + 1))
  end.

(** Whether a colon comes before the first slash. *)
Fixpoint colonInFirstSegment (s : string) : bool :=
  match s with
  | EmptyString => false
  | String c rest =>
      if Ascii.eqb c ":" then true
      else if Ascii.eqb c "/" then false
      else colonInFirstSegment rest
  end.

(** The text up to the first slash, and the text from that slash on. *)
Fixpoint splitAuthority (s : string) : string * string :=
  match s with
  | EmptyString => (EmptyString, EmptyString)
  | String c rest =>
      if Ascii.eqb c "/" then (EmptyString, s)
      else let '(a, r) := splitAuthority rest in (String c a, r)
  end.

Definition quote (s : string) : string :=
  let q := String (ascii_of_nat 34) EmptyString in q +:+ s +:+ q.

Definition parseError (rawurl : string) (e : error) : error :=
  url_Error ("parse " +:+ quote rawurl +:+ ": " +:+ Error e).

Definition parseURL (rawurl : string) : Result URL :=
  match getscheme rawurl with
  | Err e => Err (parseError rawurl e)
  | Ok (scheme, rest) =>
      if negb (strings.HasPrefix rest "/") then
        if negb (String.eqb scheme "") then Ok (mkURL scheme rest "" "")
        else if colonInFirstSegment rest then
          Err (parseError rawurl
                 (errors_New "first path segment in URL cannot contain colon"))
        else Ok (mkURL scheme "" "" rest)
      else if (negb (String.eqb scheme "") || negb (strings.HasPrefix rest "///"))
              && strings.HasPrefix rest "//" then
        let '(authority, rest) := splitAuthority (slice_from rest 2) in
        Ok (mkURL scheme "" authority rest)
      else Ok (mkURL scheme "" "" rest)
  end.

(** The remote service: it cannot be reached through a base URL that is not
    an http(s) one, and accepts every pair of keys otherwise. *)
Definition Validate (c : Client) : bool * option error :=
  if strings.HasPrefix (baseUrl c) "https://" || strings.HasPrefix (baseUrl c) "http://"
  then (true, None)
  else (false, Some (url_Error "unsupported protocol scheme")).

Definition unstable : gmap string bool :=
  {[ "GetLogsIndex" := false; "ListLogIndexes" := false;
     "UpdateLogsIndex" := false; "UpdateLogsIndexOrder" := false ]}.

Definition servers : list string :=
  ["https://{subdomain}.{site}"; "{protocol}://{name}"; "https://{subdomain}.{site}"].

Definition env : Env := {|
  version_ProviderVersion := "2.12.1";
  meta_SDKVersionString := "1.15.0";
  TerraformVersion := "0.13.2";
  runtime_Version := "go1.15"; runtime_GOOS := "linux"; runtime_GOARCH := "amd64";
  logging_IsDebugOrHigher := false;
  datadogV1_NewConfiguration :=
    mkConfiguration "datadog-api-client-go/1.0.0-beta.9 (go go1.15; os linux; arch amd64)"
      false servers unstable;
  datadogV2_NewConfiguration :=
    mkConfiguration "datadog-api-client-go/1.0.0-beta.9 (go go1.15; os linux; arch amd64)"
      false servers ∅;
  datadogCommunity_baseUrl := "https://api.datadoghq.com";
  datadogCommunity_Validate := Validate;
  url_Parse := parseURL;
  fmt_other := fun _ _ _ => EmptyString |}.

Definition config (url : string) (validate : bool) : ResourceData :=
  mkResourceData "0123456789abcdef" "fedcba9876543210" url validate.

(** The same versions on another machine, with debug logging and a service
    that rejects every pair of keys. *)
Definition otherEnv : Env := {|
  version_ProviderVersion := "2.12.1";
  meta_SDKVersionString := "1.15.0";
  TerraformVersion := "0.13.2";
  runtime_Version := "go1.14"; runtime_GOOS := "darwin"; runtime_GOARCH := "arm64";
  logging_IsDebugOrHigher := true;
  datadogV1_NewConfiguration :=
    mkConfiguration "datadog-api-client-go/1.0.0-beta.8 (go go1.14; os darwin; arch arm64)"
      false servers unstable;
  datadogV2_NewConfiguration :=
    mkConfiguration "datadog-api-client-go/1.0.0-beta.8 (go go1.14; os darwin; arch arm64)"
      false servers ∅;
  datadogCommunity_baseUrl := "https://api.datadoghq.eu";
  datadogCommunity_Validate := fun _ => (false, None);
  url_Parse := parseURL;
  fmt_other := fun _ _ _ => "%!(unmodelled)" |}.

End Sample.


(** ** The provider schema

    The [Schema] table of [Provider], lines 31-56, without the descriptions.
    A default function is read over [os.Getenv], which gives the empty string
    for a variable that is not set; [None] stands for Go's nil. *)
Inductive ValueType : Type := TypeString | TypeBool.

Inductive SchemaValue : Type :=
  | StringValue (s : string)
  | BoolValue (b : bool).

(** [schema.MultiEnvDefaultFunc(ks, dv)]: the value of the first variable of
    [ks] that is not empty, and [dv] when there is none. *)
Fixpoint MultiEnvDefaultFunc (ks : list string) (dv : option SchemaValue)
    (getenv : string -> string) : option SchemaValue :=
  match ks with
  | [] => dv
  | k :: more =>
      if negb (String.eqb (getenv k) "") then Some (StringValue (getenv k))
      else MultiEnvDefaultFunc more dv getenv
  end.

Record Schema : Type := mkSchema {
  Type' : ValueType; Optional : bool;
  Default : option SchemaValue;
  DefaultFunc : option ((string -> string) -> option SchemaValue) }.

(** The [DefaultValue] method of a schema: the fixed default when there is
    one, the result of the default function otherwise. *)
Definition DefaultValue (s : Schema) (getenv : string -> string) : option SchemaValue :=
  match Default s with
  | Some v => Some v
  | None =>
      match DefaultFunc s with
      | Some f => f getenv
      | None => None
      end
  end.

Definition providerSchema : gmap string Schema :=
  {[ "api_key" :=
       mkSchema TypeString true None
         (Some (MultiEnvDefaultFunc ["DATADOG_API_KEY"; "DD_API_KEY"] None));
     "app_key" :=
       mkSchema TypeString true None
         (Some (MultiEnvDefaultFunc ["DATADOG_APP_KEY"; "DD_APP_KEY"] None));
     "api_url" :=
       mkSchema TypeString true None
         (Some (MultiEnvDefaultFunc ["DATADOG_HOST"; "DD_HOST"] None));
     "validate" := mkSchema TypeBool true (Some (BoolValue true)) None ]}.

(** The variables of the options that are read from the environment. *)
Definition envNames : list (string * string * string) :=
  [("api_key", "DATADOG_API_KEY", "DD_API_KEY");
   ("app_key", "DATADOG_APP_KEY", "DD_APP_KEY");
   ("api_url", "DATADOG_HOST", "DD_HOST")].

(** The operations that [providerConfigure] enables, lines 180-183. *)
Definition enabledOperations : list string :=
  ["GetLogsIndex"; "ListLogIndexes"; "UpdateLogsIndex"; "UpdateLogsIndexOrder"].

(** An environment in which only the short names are set. *)
Definition sampleGetenv (k : string) : string :=
  if String.eqb k "DD_API_KEY" then "0123456789abcdef"
  else if String.eqb k "DD_HOST" then "https://api.datadoghq.eu"
  else "".

(** * Properties *)

(** ** Strings *)

Lemma append_nil_r (s : string) : s +:+ "" = s.
Proof. induction s as [|c s IH]; simpl; [reflexivity | now rewrite IH]. Qed.

Lemma append_assoc (s t u : string) : (s +:+ t) +:+ u = s +:+ t +:+ u.
Proof. induction s as [|c s IH]; simpl; [reflexivity | now rewrite IH]. Qed.

Lemma length_append (s t : string) :
  String.length (s +:+ t) = String.length s + String.length t.
Proof. induction s as [|c s IH]; simpl; [reflexivity | now rewrite IH]. Qed.

Lemma substring_append_l (s t : string) :
  String.substring 0 (String.length s) (s +:+ t) = s.
Proof.
  induction s as [|c s IH]; simpl.
  - now destruct t.
  - now rewrite IH.
Qed.

Lemma substring_append_r (s t : string) (m : nat) :
  String.substring (String.length s) m (s +:+ t) = String.substring 0 m t.
Proof. induction s as [|c s IH]; simpl; [reflexivity | exact IH]. Qed.

Lemma substring_all (s : string) : String.substring 0 (String.length s) s = s.
Proof. induction s as [|c s IH]; simpl; [reflexivity | now rewrite IH]. Qed.

Lemma ContainsByte_append (s t : string) (c : ascii) :
  strings.ContainsByte (s +:+ t) c = strings.ContainsByte s c || strings.ContainsByte t c.
Proof.
  induction s as [|a s IH]; simpl; [reflexivity |].
  now rewrite IH, orb_assoc.
Qed.

Lemma ContainsByte_substring (s : string) (c : ascii) :
  strings.ContainsByte s c = false ->
  forall n m, strings.ContainsByte (String.substring n m s) c = false.
Proof.
  induction s as [|a s IH]; intros H n m.
  - now destruct n, m.
  - simpl in H. apply orb_false_iff in H as [Ha Hs].
    destruct n as [|n]; simpl.
    + destruct m as [|m]; simpl; [reflexivity |].
      now rewrite Ha, IH.
    + now apply IH.
Qed.

(** The pieces of [Split] are never none. *)
Lemma Split_cons (s : string) (sep : ascii) :
  exists piece pieces, strings.Split s sep = piece :: pieces.
Proof.
  induction s as [|c s [p [ps IH]]]; simpl; [now eauto |].
  destruct (Ascii.eqb c sep); [now eauto |].
  rewrite IH. now eauto.
Qed.

Lemma Split_length (s : string) (sep : ascii) :
  length (strings.Split s sep) = S (strings.CountByte s sep).
Proof.
  induction s as [|c s IH]; simpl; [reflexivity |].
  destruct (Ascii.eqb c sep); simpl; [now rewrite IH |].
  destruct (Split_cons s sep) as [p [ps Hs]]. rewrite Hs in *. exact IH.
Qed.

Lemma Join_cons (e e' : string) (more : list string) (sep : string) :
  strings.Join (e :: e' :: more) sep = e +:+ sep +:+ strings.Join (e' :: more) sep.
Proof. reflexivity. Qed.

(** Joining the pieces with the separator gives the string back. *)
Lemma Join_Split (s : string) (sep : ascii) :
  strings.Join (strings.Split s sep) (String sep "") = s.
Proof.
  induction s as [|c s IH]; [reflexivity |].
  cbn [strings.Split].
  destruct (Split_cons s sep) as [p [ps Hs]]. rewrite Hs in *.
  destruct (Ascii.eqb_spec c sep) as [->|Hne].
  - rewrite Join_cons, IH. reflexivity.
  - destruct ps as [|q qs].
    + cbn in *. now rewrite IH.
    + rewrite <- IH. reflexivity.
Qed.

(** The first label of a dotted name is the first piece. *)
Lemma Split_first (label rest : string) (sep : ascii) :
  strings.ContainsByte label sep = false ->
  strings.Split (label +:+ String sep rest) sep = label :: strings.Split rest sep.
Proof.
  induction label as [|c l IH]; intros H; simpl.
  - now rewrite Ascii.eqb_refl.
  - simpl in H. apply orb_false_iff in H as [Hc Hl].
    rewrite Hc, (IH Hl). reflexivity.
Qed.

Lemma Split_no_byte (s : string) (sep c : ascii) :
  strings.ContainsByte s c = false ->
  Forall (fun piece => strings.ContainsByte piece c = false) (strings.Split s sep).
Proof.
  induction s as [|a s IH]; intros H; simpl.
  - now repeat constructor.
  - simpl in H. apply orb_false_iff in H as [Ha Hs]. specialize (IH Hs).
    destruct (Ascii.eqb a sep); [now constructor |].
    destruct (Split_cons s sep) as [p [ps Hp]]. rewrite Hp in *.
    inversion IH as [|? ? Hp' Hps]; subst. constructor; [|assumption].
    simpl. now rewrite Ha, Hp'.
Qed.

Lemma Join_no_byte (elems : list string) (sep : string) (c : ascii) :
  strings.ContainsByte sep c = false ->
  Forall (fun piece => strings.ContainsByte piece c = false) elems ->
  strings.ContainsByte (strings.Join elems sep) c = false.
Proof.
  intros Hsep. induction 1 as [|e more He Hmore IH]; [reflexivity |].
  destruct more as [|e' more]; [exact He |].
  change (strings.Join (e :: e' :: more) sep)
    with (e +:+ sep +:+ strings.Join (e' :: more) sep).
  now rewrite !ContainsByte_append, He, Hsep, IH.
Qed.

(** ** Host names *)

Lemma LastIndexByte_absent (s : string) (c : ascii) :
  strings.ContainsByte s c = false -> strings.LastIndexByte s c = None.
Proof.
  induction s as [|a s IH]; [reflexivity |]. simpl.
  intros H. apply orb_false_iff in H as [Ha Hs].
  now rewrite (IH Hs), Ha.
Qed.

Lemma LastIndexByte_last (h p : string) (c : ascii) :
  strings.ContainsByte p c = false ->
  strings.LastIndexByte (h +:+ String c p) c = Some (String.length h).
Proof.
  intros Hp. induction h as [|a h IH]; simpl.
  - now rewrite (LastIndexByte_absent _ _ Hp), Ascii.eqb_refl.
  - now rewrite IH.
Qed.

Lemma isDigit_not_colon (c : ascii) : isDigit c = true -> Ascii.eqb c ":" = false.
Proof.
  intros H. destruct (Ascii.eqb_spec c ":") as [->|]; [discriminate H | reflexivity].
Qed.

Lemma allDigits_no_colon (p : string) :
  allDigits p = true -> strings.ContainsByte p ":" = false.
Proof.
  induction p as [|c p IH]; [reflexivity |]. simpl.
  intros H. apply andb_true_iff in H as [Hc Hp].
  now rewrite (isDigit_not_colon _ Hc), IH.
Qed.

(** A valid port is cut off the host. *)
Lemma splitHostPort_port (h p : string) :
  allDigits p = true ->
  fst (splitHostPort (h +:+ ":" +:+ p)) = stripBrackets h.
Proof.
  intros Hp. unfold splitHostPort.
  change (h +:+ ":" +:+ p) with (h +:+ String ":" p).
  rewrite (LastIndexByte_last h p ":" (allDigits_no_colon p Hp)).
  assert (Hfrom : slice_from (h +:+ String ":" p) (String.length h) = String ":" p).
  { unfold slice_from. rewrite substring_append_r, length_append.
    replace (String.length h + String.length (String ":" p) - String.length h)
      with (String.length (String ":" p)) by lia.
    apply substring_all. }
  rewrite Hfrom.
  assert (Hvalid : validOptionalPort (String ":" p) = true).
  { simpl. exact Hp. }
  rewrite Hvalid. unfold slice_to. rewrite substring_append_l. reflexivity.
Qed.

Lemma stripBrackets_no_byte (h : string) (c : ascii) :
  strings.ContainsByte h c = false -> strings.ContainsByte (stripBrackets h) c = false.
Proof.
  intros H. unfold stripBrackets.
  destruct (_ && _); [now apply ContainsByte_substring | exact H].
Qed.

Lemma stripBrackets_plain (h : string) :
  strings.HasPrefix h "[" = false -> stripBrackets h = h.
Proof. intros H. unfold stripBrackets. now rewrite H. Qed.

(** ** The IP ranges host *)

(** A name of at most two labels keeps all its labels. *)
Lemma ipRangesName_short (host : string) :
  strings.CountByte host "." <= 1 ->
  ipRangesName host = "ip-ranges." +:+ host.
Proof.
  intros H. unfold ipRangesName.
  pose proof (Split_length host ".") as Hlen.
  destruct (Nat.ltb_spec 2 (length (strings.Split host "."))) as [Hlt|_]; [lia |].
  destruct (Split_cons host ".") as [p [ps Hs]].
  pose proof (Join_Split host ".") as HJ. rewrite Hs in *.
  unfold baseIpRangesSubdomain. rewrite Join_cons, HJ. reflexivity.
Qed.

(** A name of more than two labels loses its leftmost label. *)
Lemma ipRangesName_long (label rest : string) :
  strings.ContainsByte label "." = false ->
  1 <= strings.CountByte rest "." ->
  ipRangesName (label +:+ "." +:+ rest) = "ip-ranges." +:+ rest.
Proof.
  intros Hl Hr. unfold ipRangesName.
  change (label +:+ "." +:+ rest) with (label +:+ String "." rest).
  rewrite (Split_first label rest "." Hl).
  pose proof (Split_length rest ".") as Hlen.
  cbn [length].
  destruct (Nat.ltb_spec 2 (S (length (strings.Split rest ".")))) as [_|Hge]; [|lia].
  cbn [tail].
  destruct (Split_cons rest ".") as [p [ps Hs]].
  pose proof (Join_Split rest ".") as HJ. rewrite Hs in *.
  unfold baseIpRangesSubdomain. rewrite Join_cons, HJ. reflexivity.
Qed.

Lemma ipRangesName_no_colon (host : string) :
  strings.ContainsByte host ":" = false ->
  strings.ContainsByte (ipRangesName host) ":" = false.
Proof.
  intros Hh. unfold ipRangesName.
  apply Join_no_byte; [reflexivity |].
  constructor; [reflexivity |].
  pose proof (Split_no_byte host "." ":" Hh) as HF.
  destruct (Nat.ltb 2 _); [|exact HF].
  destruct HF; [constructor | assumption].
Qed.

(** ** Formatting *)

Section Facts.

Variable E : Env.

(** Text without a percent sign is copied by [doPrintf]. *)
Lemma doPrintf_literal (text format : string) (a : list Arg) (n : nat) :
  strings.ContainsByte text "%" = false ->
  doPrintf E (text +:+ format) a n = text +:+ doPrintf E format a n.
Proof.
  induction text as [|c text IH]; intros H; [reflexivity |].
  simpl in H. apply orb_false_iff in H as [Hc Ht].
  cbn [String.append doPrintf]. rewrite Hc, (IH Ht). reflexivity.
Qed.

Lemma getUserAgent_prefix (clientUserAgent : string) :
  getUserAgent E clientUserAgent = userAgentPrefix E +:+ clientUserAgent.
Proof.
  unfold getUserAgent, userAgentPrefix, Sprintf. cbn.
  rewrite append_nil_r. repeat (rewrite append_assoc; cbn [String.append]). reflexivity.
Qed.

Lemma Errorf_invalid (parseErr : error) :
  Errorf E "invalid API Url : %v" [AError parseErr]
  = errorString ("invalid API Url : " +:+ Error parseErr).
Proof. unfold Errorf, Sprintf. cbn. now rewrite append_nil_r. Qed.

Lemma Errorf_missing (apiURL : string) :
  Errorf E "missing protocol or host : %v" [AString apiURL]
  = errorString ("missing protocol or host : " +:+ apiURL).
Proof. unfold Errorf, Sprintf. cbn. now rewrite append_nil_r. Qed.

(** A structured API error with a context message that holds no percent
    sign: context, error text and body, in this order. *)
Lemma doPrintf_api_error (msg : string) (err : error) (body : string) :
  strings.ContainsByte msg "%" = false ->
  Sprintf E (msg +:+ ": %v: %s") [AError err; ABytes body]
  = msg +:+ ": " +:+ Error err +:+ ": " +:+ body.
Proof.
  intros H. unfold Sprintf. rewrite (doPrintf_literal _ _ _ _ H). cbn.
  now rewrite append_nil_r.
Qed.

Lemma translateClientError_api_v1 (text body msg : string) :
  strings.ContainsByte msg "%" = false ->
  translateClientError E (V1_GenericOpenAPIError text body) msg
  = errorString ((if String.eqb msg "" then "an error occurred" else msg)
                 +:+ ": " +:+ text +:+ ": " +:+ body).
Proof.
  intros H. unfold translateClientError, Errorf.
  rewrite doPrintf_api_error; [reflexivity |].
  destruct (String.eqb msg ""); [reflexivity | exact H].
Qed.

Lemma translateClientError_api_v2 (text body msg : string) :
  strings.ContainsByte msg "%" = false ->
  translateClientError E (V2_GenericOpenAPIError text body) msg
  = errorString ((if String.eqb msg "" then "an error occurred" else msg)
                 +:+ ": " +:+ text +:+ ": " +:+ body).
Proof.
  intros H. unfold translateClientError, Errorf.
  rewrite doPrintf_api_error; [reflexivity |].
  destruct (String.eqb msg ""); [reflexivity | exact H].
Qed.

(** ** The validation of the keys *)

Lemma validateKeys_skip (c : Client) :
  validateKeys E false c
  = ([LogLine "[INFO] Skipping key validation (validate = false)";
      LogLine "[INFO] Datadog Client successfully validated."], Ok tt).
Proof. reflexivity. Qed.

Lemma validateKeys_once (c : Client) :
  networkCalls (fst (validateKeys E true c)) = 1.
Proof.
  unfold validateKeys.
  destruct (datadogCommunity_Validate E c) as [ok [err|]]; [|destruct ok]; reflexivity.
Qed.

Lemma validateKeys_outcome (c : Client) :
  snd (validateKeys E true c)
  = match datadogCommunity_Validate E c with
    | (_, Some err) => Err err
    | (false, None) => Err (errors_New invalidCredentials)
    | (true, None) => Ok tt
    end.
Proof.
  unfold validateKeys.
  destruct (datadogCommunity_Validate E c) as [[] [err|]]; reflexivity.
Qed.

(** ** The endpoint *)

Lemma serverOverrideV1_absent (ctx : Context) : serverOverrideV1 E "" ctx = Ok ctx.
Proof. reflexivity. Qed.

Lemma serverOverrideV2_absent (ctx : Context) : serverOverrideV2 E "" ctx = Ok ctx.
Proof. reflexivity. Qed.

Lemma nonempty_eqb (s : string) : s <> "" -> negb (String.eqb s "") = true.
Proof. intros H. apply String.eqb_neq in H. now rewrite H. Qed.

Lemma both_nonempty (a b : string) :
  a <> "" -> b <> "" -> String.eqb a "" || String.eqb b "" = false.
Proof.
  intros Ha Hb. apply String.eqb_neq in Ha, Hb. now rewrite Ha, Hb.
Qed.

Lemma one_empty (a b : string) :
  a = "" \/ b = "" -> String.eqb a "" || String.eqb b "" = true.
Proof.
  intros [->| ->]; [reflexivity |]. now rewrite orb_true_r.
Qed.

Lemma serverOverrideV1_malformed (apiURL : string) (ctx : Context) (parseErr : error) :
  apiURL <> "" -> url_Parse E apiURL = Err parseErr ->
  serverOverrideV1 E apiURL ctx = Err (errorString ("invalid API Url : " +:+ Error parseErr)).
Proof.
  intros Hne Hp. unfold serverOverrideV1.
  now rewrite (nonempty_eqb _ Hne), Hp, Errorf_invalid.
Qed.

Lemma serverOverrideV2_malformed (apiURL : string) (ctx : Context) (parseErr : error) :
  apiURL <> "" -> url_Parse E apiURL = Err parseErr ->
  serverOverrideV2 E apiURL ctx = Err (errorString ("invalid API Url : " +:+ Error parseErr)).
Proof.
  intros Hne Hp. unfold serverOverrideV2.
  now rewrite (nonempty_eqb _ Hne), Hp, Errorf_invalid.
Qed.

Lemma serverOverrideV1_incomplete (apiURL : string) (ctx : Context) (u : URL) :
  apiURL <> "" -> url_Parse E apiURL = Ok u -> Host u = "" \/ Scheme u = "" ->
  serverOverrideV1 E apiURL ctx = Err (errorString ("missing protocol or host : " +:+ apiURL)).
Proof.
  intros Hne Hp Hu. unfold serverOverrideV1.
  now rewrite (nonempty_eqb _ Hne), Hp, (one_empty _ _ Hu), Errorf_missing.
Qed.

Lemma serverOverrideV2_incomplete (apiURL : string) (ctx : Context) (u : URL) :
  apiURL <> "" -> url_Parse E apiURL = Ok u -> Host u = "" \/ Scheme u = "" ->
  serverOverrideV2 E apiURL ctx = Err (errorString ("missing protocol or host : " +:+ apiURL)).
Proof.
  intros Hne Hp Hu. unfold serverOverrideV2.
  now rewrite (nonempty_eqb _ Hne), Hp, (one_empty _ _ Hu), Errorf_missing.
Qed.

Lemma serverOverrideV1_valid (apiURL : string) (ctx : Context) (u : URL) :
  apiURL <> "" -> url_Parse E apiURL = Ok u -> Host u <> "" -> Scheme u <> "" ->
  serverOverrideV1 E apiURL ctx
  = Ok ((ContextOperationServerVariables,
         OperationVariablesValue
           {[ "IPRangesApiService.GetIPRanges" := {[ "name" := ipRangesName (Hostname u) ]} ]})
        :: (ContextOperationServerIndices, IndicesValue {[ "IPRangesApiService.GetIPRanges" := 1 ]})
        :: (ContextServerVariables,
            VariablesValue {[ "name" := Host u; "protocol" := Scheme u ]})
        :: (ContextServerIndex, IntValue 1) :: ctx).
Proof.
  intros Hne Hp Hh Hs. unfold serverOverrideV1.
  now rewrite (nonempty_eqb _ Hne), Hp, (both_nonempty _ _ Hh Hs).
Qed.

Lemma serverOverrideV2_valid (apiURL : string) (ctx : Context) (u : URL) :
  apiURL <> "" -> url_Parse E apiURL = Ok u -> Host u <> "" -> Scheme u <> "" ->
  serverOverrideV2 E apiURL ctx
  = Ok ((ContextServerVariables,
         VariablesValue {[ "name" := Host u; "protocol" := Scheme u ]})
        :: (ContextServerIndex, IntValue 1) :: ctx).
Proof.
  intros Hne Hp Hh Hs. unfold serverOverrideV2.
  now rewrite (nonempty_eqb _ Hne), Hp, (both_nonempty _ _ Hh Hs).
Qed.

(** A supplied [api_url] is resolved in one of three ways. *)
Lemma url_cases (apiURL : string) :
  (exists parseErr, url_Parse E apiURL = Err parseErr)
  \/ (exists u, url_Parse E apiURL = Ok u /\ (Host u = "" \/ Scheme u = ""))
  \/ (exists u, url_Parse E apiURL = Ok u /\ Host u <> "" /\ Scheme u <> "").
Proof.
  destruct (url_Parse E apiURL) as [u|e]; [|now eauto].
  destruct (String.eqb_spec (Host u) ""); [now eauto 6 |].
  destruct (String.eqb_spec (Scheme u) ""); now eauto 8.
Qed.

(** The two blocks fail together, with the same error. *)
Lemma serverOverride_errors (apiURL : string) (ctx1 ctx2 : Context) (e : error) :
  serverOverrideV1 E apiURL ctx1 = Err e <-> serverOverrideV2 E apiURL ctx2 = Err e.
Proof.
  destruct (String.eqb_spec apiURL "") as [->|Hne]; [now split |].
  destruct (url_cases apiURL) as [[pe Hp]|[[u [Hp Hu]]|[u [Hp [Hh Hs]]]]].
  - now rewrite (serverOverrideV1_malformed _ ctx1 _ Hne Hp),
      (serverOverrideV2_malformed _ ctx2 _ Hne Hp).
  - now rewrite (serverOverrideV1_incomplete _ ctx1 _ Hne Hp Hu),
      (serverOverrideV2_incomplete _ ctx2 _ Hne Hp Hu).
  - now rewrite (serverOverrideV1_valid _ ctx1 _ Hne Hp Hh Hs),
      (serverOverrideV2_valid _ ctx2 _ Hne Hp Hh Hs).
Qed.

(** ** The bootstrap as a whole *)

Lemma providerConfigure_unfold (d : ResourceData) :
  providerConfigure E d
  = if guard d then
      fail (errors_New "api_key and app_key must be set unless validate = false")
    else
      validateKeys E (validate d) (communityClientOf E d);;
      authV1 ← liftResult (serverOverrideV1 E (api_url d) (authKeys d));
      authV2 ← liftResult (serverOverrideV2 E (api_url d) (authKeys d));
      mret (mkProviderConfiguration (communityClientOf E d) (NewAPIClient (configV1Of E))
              (NewAPIClient (configV2Of E)) authV1 authV2 time_Now).
Proof. reflexivity. Qed.

Lemma providerConfigure_run (d : ResourceData) :
  guard d = false ->
  providerConfigure E d
  = (fst (validateKeys E (validate d) (communityClientOf E d)),
     match snd (validateKeys E (validate d) (communityClientOf E d)) with
     | Ok _ => officialClients E d
     | Err e => Err e
     end).
Proof.
  intros Hg. rewrite providerConfigure_unfold, Hg.
  unfold officialClients, liftResult, mbind, M_bind, mret, M_ret.
  destruct (validateKeys E (validate d) (communityClientOf E d)) as [t [[]|e]];
    [|reflexivity].
  destruct (serverOverrideV1 E (api_url d) (authKeys d)) as [a1|e1];
    [|cbn; now rewrite app_nil_r].
  destruct (serverOverrideV2 E (api_url d) (authKeys d)) as [a2|e2];
    cbn; now rewrite app_nil_r.
Qed.

Lemma providerConfigure_success (d : ResourceData) (t : list Event)
    (config : ProviderConfiguration) :
  providerConfigure E d = (t, Ok config) ->
  exists authV1 authV2,
    serverOverrideV1 E (api_url d) (authKeys d) = Ok authV1 /\
    serverOverrideV2 E (api_url d) (authKeys d) = Ok authV2 /\
    config = mkProviderConfiguration (communityClientOf E d) (NewAPIClient (configV1Of E))
               (NewAPIClient (configV2Of E)) authV1 authV2 time_Now.
Proof.
  intros H. destruct (guard d) eqn:Hg.
  - rewrite providerConfigure_unfold, Hg in H. discriminate H.
  - rewrite (providerConfigure_run d Hg) in H.
    injection H as _ H.
    destruct (snd (validateKeys E (validate d) (communityClientOf E d))); [|discriminate H].
    unfold officialClients in H.
    destruct (serverOverrideV1 E (api_url d) (authKeys d)) as [a1|]; [|discriminate H].
    destruct (serverOverrideV2 E (api_url d) (authKeys d)) as [a2|]; [|discriminate H].
    injection H as <-. now eauto.
Qed.

Lemma SetUnstableOperationEnabled_UserAgent (c : Configuration) (op : string) (b : bool) :
  UserAgent (SetUnstableOperationEnabled c op b) = UserAgent c.
Proof. unfold SetUnstableOperationEnabled. now destruct (_ !! _). Qed.

Lemma SetUnstableOperationEnabled_Servers (c : Configuration) (op : string) (b : bool) :
  Servers (SetUnstableOperationEnabled c op b) = Servers c.
Proof. unfold SetUnstableOperationEnabled. now destruct (_ !! _). Qed.

Lemma configV1Of_UserAgent :
  UserAgent (configV1Of E) = getUserAgent E (UserAgent (datadogV1_NewConfiguration E)).
Proof.
  unfold configV1Of. cbn [setDebug setUserAgent UserAgent].
  now rewrite !SetUnstableOperationEnabled_UserAgent.
Qed.

Lemma configV1Of_Servers : Servers (configV1Of E) = Servers (datadogV1_NewConfiguration E).
Proof.
  unfold configV1Of. cbn [setDebug setUserAgent Servers].
  now rewrite !SetUnstableOperationEnabled_Servers.
Qed.

Lemma communityClientOf_UserAgent (d : ResourceData) :
  ExtraHeader (communityClientOf E d) !! "User-Agent"
  = Some (getUserAgent E (communityUserAgent E)).
Proof.
  unfold communityClientOf, setHttpClient, setExtraHeader. cbn [ExtraHeader].
  apply lookup_insert_eq.
Qed.

Lemma communityUserAgent_format :
  communityUserAgent E
  = "datadog-api-client-go/go-datadog-api (go " +:+ runtime_Version E +:+
    "; os " +:+ runtime_GOOS E +:+ "; arch " +:+ runtime_GOARCH E +:+ ")".
Proof.
  unfold communityUserAgent, Sprintf. cbn. reflexivity.
Qed.

End Facts.

(** * The claims *)

Section Claims.

Variable E : Env.

(** C5. When [validate] is true and [api_key] or [app_key] is the empty
    string, the bootstrap fails at once with the missing-credentials error:
    no event at all has happened, so no network call was made. *)
Theorem C5_missing_credentials (d : ResourceData) :
  validate d = true ->
  api_key d = "" \/ app_key d = "" ->
  providerConfigure E d
  = ([], Err (errorString "api_key and app_key must be set unless validate = false"))
  /\ networkCalls (fst (providerConfigure E d)) = 0.
Proof.
  intros Hv Hk.
  assert (Hg : guard d = true).
  { unfold guard. now rewrite Hv, (one_empty _ _ Hk). }
  rewrite providerConfigure_unfold, Hg. split; reflexivity.
Qed.

(** C6. When [validate] is false the validation step makes no network call
    and succeeds whatever the keys are (the client is arbitrary, its keys may
    be empty); the whole bootstrap then makes no network call, and its result
    is that of building the clients from the [api_url] alone. *)
Theorem C6_validation_skipped (d : ResourceData) :
  validate d = false ->
  (forall c : Client,
     snd (validateKeys E false c) = Ok tt
     /\ networkCalls (fst (validateKeys E false c)) = 0)
  /\ networkCalls (fst (providerConfigure E d)) = 0
  /\ snd (providerConfigure E d) = officialClients E d
  /\ (api_url d = "" -> exists config, snd (providerConfigure E d) = Ok config).
Proof.
  intros Hv.
  assert (Hg : guard d = false) by (unfold guard; now rewrite Hv).
  rewrite (providerConfigure_run E d Hg), Hv, validateKeys_skip.
  repeat split.
  intros Hu. cbn [snd]. unfold officialClients. rewrite Hu.
  rewrite serverOverrideV1_absent, serverOverrideV2_absent. now eauto.
Qed.

(** C7. A supplied [api_url] that [url.Parse] rejects makes both blocks fail
    with the error "invalid API Url", which carries the text of the parse
    error; one that parses with an empty host or an empty scheme makes them
    fail with the different error "missing protocol or host", which carries
    the [api_url] itself; otherwise the override holds exactly the parsed host
    and scheme. When the block fails, the bootstrap returns an error and no
    configuration. *)
Theorem C7_endpoint_resolver (apiURL : string) (ctx1 ctx2 : Context) :
  apiURL <> "" ->
  (forall parseErr, url_Parse E apiURL = Err parseErr ->
     serverOverrideV1 E apiURL ctx1
     = Err (errorString ("invalid API Url : " +:+ Error parseErr))
     /\ serverOverrideV2 E apiURL ctx2
        = Err (errorString ("invalid API Url : " +:+ Error parseErr)))
  /\ (forall u, url_Parse E apiURL = Ok u -> Host u = "" \/ Scheme u = "" ->
        serverOverrideV1 E apiURL ctx1
        = Err (errorString ("missing protocol or host : " +:+ apiURL))
        /\ serverOverrideV2 E apiURL ctx2
           = Err (errorString ("missing protocol or host : " +:+ apiURL)))
  /\ (forall u, url_Parse E apiURL = Ok u -> Host u <> "" -> Scheme u <> "" ->
        exists c1 c2,
          serverOverrideV1 E apiURL ctx1 = Ok c1
          /\ serverOverrideV2 E apiURL ctx2 = Ok c2
          /\ Value c1 ContextServerVariables
             = Some (VariablesValue {[ "name" := Host u; "protocol" := Scheme u ]})
          /\ Value c2 ContextServerVariables
             = Some (VariablesValue {[ "name" := Host u; "protocol" := Scheme u ]}))
  /\ (forall x y : string,
        errorString ("invalid API Url : " +:+ x)
        <> errorString ("missing protocol or host : " +:+ y))
  /\ (forall (d : ResourceData) (e : error),
        api_url d = apiURL ->
        serverOverrideV1 E apiURL (authKeys d) = Err e ->
        exists e', snd (providerConfigure E d) = Err e').
Proof.
  intros Hne. repeat split.
  - now apply serverOverrideV1_malformed.
  - now apply serverOverrideV2_malformed.
  - now apply serverOverrideV1_incomplete with u.
  - now apply serverOverrideV2_incomplete with u.
  - intros u Hp Hh Hs.
    rewrite (serverOverrideV1_valid E _ ctx1 _ Hne Hp Hh Hs),
      (serverOverrideV2_valid E _ ctx2 _ Hne Hp Hh Hs).
    eexists _, _. repeat split.
  - intros x y H. discriminate H.
  - intros d e Hd He. subst apiURL.
    destruct (guard d) eqn:Hg.
    + rewrite providerConfigure_unfold, Hg. now eauto.
    + rewrite (providerConfigure_run E d Hg). cbn [snd].
      destruct (snd (validateKeys E (validate d) (communityClientOf E d)));
        [|now eauto].
      unfold officialClients. rewrite He. now eauto.
Qed.

(** C1, as the code has it. When the block of the [api_url] fails with an
    error: with [validate] false the bootstrap fails with that error and makes
    no network call; with [validate] true and both keys set, the keys are
    validated first, in exactly one network call, and the bootstrap fails with
    the error of the validation when there is one and with the endpoint error
    only when the keys were accepted. *)
Theorem C1_endpoint_error_after_validation (d : ResourceData) (e : error) :
  serverOverrideV1 E (api_url d) (authKeys d) = Err e ->
  (validate d = false ->
     snd (providerConfigure E d) = Err e
     /\ networkCalls (fst (providerConfigure E d)) = 0)
  /\ (validate d = true -> api_key d <> "" -> app_key d <> "" ->
        networkCalls (fst (providerConfigure E d)) = 1
        /\ In (ValidateCall (communityClientOf E d)) (fst (providerConfigure E d))
        /\ snd (providerConfigure E d)
           = match datadogCommunity_Validate E (communityClientOf E d) with
             | (_, Some err) => Err err
             | (false, None) => Err (errors_New invalidCredentials)
             | (true, None) => Err e
             end).
Proof.
  intros He. split.
  - intros Hv.
    assert (Hg : guard d = false) by (unfold guard; now rewrite Hv).
    rewrite (providerConfigure_run E d Hg), Hv, validateKeys_skip. cbn [fst snd].
    unfold officialClients. rewrite He. split; reflexivity.
  - intros Hv Ha Hb.
    assert (Hg : guard d = false).
    { unfold guard. now rewrite Hv, (both_nonempty _ _ Ha Hb). }
    rewrite (providerConfigure_run E d Hg), Hv. cbn [fst snd].
    rewrite validateKeys_once, validateKeys_outcome.
    split; [reflexivity |]. split.
    + unfold validateKeys.
      destruct (datadogCommunity_Validate E (communityClientOf E d)) as [[] [err|]];
        cbn; tauto.
    + destruct (datadogCommunity_Validate E (communityClientOf E d)) as [[] [err|]];
        try reflexivity.
      unfold officialClients. now rewrite He.
Qed.

(** C2, as the code has it. After a successful bootstrap each client carries
    an identity string built by [getUserAgent]: the same prefix of provider,
    SDK and CLI versions, followed by the agent of the client it wraps, which
    is a fixed text for the legacy client and the default of the library for
    the v1 and the v2 client. Two of them are equal exactly when the wrapped
    agents are. *)
Theorem C2_identity_strings (d : ResourceData) (t : list Event)
    (config : ProviderConfiguration) :
  providerConfigure E d = (t, Ok config) ->
  ExtraHeader (CommunityClient config) !! "User-Agent"
  = Some (userAgentPrefix E +:+ communityUserAgent E)
  /\ UserAgent (GetConfig (DatadogClientV1 config))
     = userAgentPrefix E +:+ UserAgent (datadogV1_NewConfiguration E)
  /\ UserAgent (GetConfig (DatadogClientV2 config))
     = userAgentPrefix E +:+ UserAgent (datadogV2_NewConfiguration E)
  /\ communityUserAgent E
     = "datadog-api-client-go/go-datadog-api (go " +:+ runtime_Version E +:+
       "; os " +:+ runtime_GOOS E +:+ "; arch " +:+ runtime_GOARCH E +:+ ")"
  /\ (ExtraHeader (CommunityClient config) !! "User-Agent"
      = Some (UserAgent (GetConfig (DatadogClientV1 config)))
      <-> communityUserAgent E = UserAgent (datadogV1_NewConfiguration E))
  /\ (UserAgent (GetConfig (DatadogClientV1 config))
      = UserAgent (GetConfig (DatadogClientV2 config))
      <-> UserAgent (datadogV1_NewConfiguration E)
          = UserAgent (datadogV2_NewConfiguration E)).
Proof.
  intros H. destruct (providerConfigure_success E d t config H) as (a1 & a2 & _ & _ & ->).
  cbn [CommunityClient DatadogClientV1 DatadogClientV2 NewAPIClient GetConfig].
  rewrite communityClientOf_UserAgent, configV1Of_UserAgent, !getUserAgent_prefix.
  assert (H2 : UserAgent (configV2Of E)
               = userAgentPrefix E +:+ UserAgent (datadogV2_NewConfiguration E)).
  { unfold configV2Of. cbn [setDebug setUserAgent UserAgent]. apply getUserAgent_prefix. }
  rewrite H2.
  split; [reflexivity |]. split; [reflexivity |]. split; [reflexivity |].
  split; [apply communityUserAgent_format |].
  split; split; intros Heq.
  - injection Heq as Heq. exact (inj (String.append _) _ _ Heq).
  - now rewrite Heq.
  - exact (inj (String.append _) _ _ Heq).
  - now rewrite Heq.
Qed.

(** C3, as the code has it. With a supplied [api_url], a successful bootstrap
    has switched the v1 and the v2 context to server slot 1 with the parsed
    host and scheme as its variables, and left the server lists of both
    configurations as the library made them; the table of per-operation
    servers is attached to the v1 context only. *)
Theorem C3_server_switch (d : ResourceData) (t : list Event)
    (config : ProviderConfiguration) :
  api_url d <> "" ->
  providerConfigure E d = (t, Ok config) ->
  exists u,
    url_Parse E (api_url d) = Ok u
    /\ Value (AuthV1 config) ContextServerIndex = Some (IntValue 1)
    /\ Value (AuthV2 config) ContextServerIndex = Some (IntValue 1)
    /\ Value (AuthV1 config) ContextServerVariables
       = Some (VariablesValue {[ "name" := Host u; "protocol" := Scheme u ]})
    /\ Value (AuthV2 config) ContextServerVariables
       = Some (VariablesValue {[ "name" := Host u; "protocol" := Scheme u ]})
    /\ Servers (GetConfig (DatadogClientV1 config)) = Servers (datadogV1_NewConfiguration E)
    /\ Servers (GetConfig (DatadogClientV2 config)) = Servers (datadogV2_NewConfiguration E)
    /\ Value (AuthV1 config) ContextOperationServerIndices
       = Some (IndicesValue {[ "IPRangesApiService.GetIPRanges" := 1 ]})
    /\ Value (AuthV1 config) ContextOperationServerVariables
       = Some (OperationVariablesValue
                 {[ "IPRangesApiService.GetIPRanges" :=
                      {[ "name" := ipRangesName (Hostname u) ]} ]})
    /\ Value (AuthV2 config) ContextOperationServerIndices = None
    /\ Value (AuthV2 config) ContextOperationServerVariables = None.
Proof.
  intros Hne H.
  destruct (providerConfigure_success E d t config H) as (a1 & a2 & H1 & H2 & ->).
  destruct (url_cases E (api_url d)) as [[pe Hp]|[[u [Hp Hu]]|[u [Hp [Hh Hs]]]]].
  - rewrite (serverOverrideV1_malformed E _ _ _ Hne Hp) in H1. discriminate H1.
  - rewrite (serverOverrideV1_incomplete E _ _ _ Hne Hp Hu) in H1. discriminate H1.
  - rewrite (serverOverrideV1_valid E _ _ _ Hne Hp Hh Hs) in H1.
    rewrite (serverOverrideV2_valid E _ _ _ Hne Hp Hh Hs) in H2.
    injection H1 as <-. injection H2 as <-.
    exists u. cbn [AuthV1 AuthV2 DatadogClientV1 DatadogClientV2 NewAPIClient GetConfig].
    rewrite configV1Of_Servers.
    repeat split; try reflexivity. exact Hp.
Qed.

(** C4. With a supplied [api_url] that resolves, the v1 context routes
    exactly one operation, IPRangesApiService.GetIPRanges, to a host made from
    the labels of the host name: the name is split on ".", the leftmost label
    is dropped when there are more than two labels and kept otherwise,
    "ip-ranges" is put in front, and the labels are joined with ".". So
    api.datadoghq.com gives ip-ranges.datadoghq.com and app.us5.datadoghq.com
    gives ip-ranges.us5.datadoghq.com. Without an [api_url] no such entry
    exists. *)
Theorem C4_ip_ranges_host (apiURL : string) (ctx : Context) (u : URL) :
  apiURL <> "" -> url_Parse E apiURL = Ok u -> Host u <> "" -> Scheme u <> "" ->
  (exists ctx' name,
     serverOverrideV1 E apiURL ctx = Ok ctx'
     /\ Value ctx' ContextOperationServerVariables
        = Some (OperationVariablesValue
                  {[ "IPRangesApiService.GetIPRanges" := {[ "name" := name ]} ]})
     /\ Value ctx' ContextOperationServerIndices
        = Some (IndicesValue {[ "IPRangesApiService.GetIPRanges" := 1 ]})
     /\ (let labels := strings.Split (Hostname u) "." in
         name = strings.Join
                  ("ip-ranges" :: (if Nat.ltb 2 (length labels) then tail labels else labels))
                  ".")
     /\ (strings.CountByte (Hostname u) "." <= 1 -> name = "ip-ranges." +:+ Hostname u)
     /\ (forall label rest,
           Hostname u = label +:+ "." +:+ rest ->
           strings.ContainsByte label "." = false ->
           1 <= strings.CountByte rest "." ->
           name = "ip-ranges." +:+ rest)
     /\ (Hostname u = "api.datadoghq.com" -> name = "ip-ranges.datadoghq.com")
     /\ (Hostname u = "app.us5.datadoghq.com" -> name = "ip-ranges.us5.datadoghq.com"))
  /\ (forall (d : ResourceData) (t : list Event) (config : ProviderConfiguration),
        api_url d = "" -> providerConfigure E d = (t, Ok config) ->
        Value (AuthV1 config) ContextOperationServerVariables = None
        /\ Value (AuthV1 config) ContextOperationServerIndices = None).
Proof.
  intros Hne Hp Hh Hs. split.
  - rewrite (serverOverrideV1_valid E _ ctx _ Hne Hp Hh Hs).
    eexists _, (ipRangesName (Hostname u)).
    split; [reflexivity |]. split; [reflexivity |]. split; [reflexivity |].
    split; [reflexivity |]. split; [apply ipRangesName_short |].
    split; [intros label rest ->; apply ipRangesName_long |].
    split; intros ->; reflexivity.
  - intros d t config Hu H.
    destruct (providerConfigure_success E d t config H) as (a1 & a2 & H1 & _ & ->).
    rewrite Hu, serverOverrideV1_absent in H1. injection H1 as <-.
    split; reflexivity.
Qed.

(** C10. When the parsed host carries a port, host ":" digits, the server
    variables record the host with its port, while the host of the IP ranges
    operation is made from the host name without the port (and without the
    square brackets of an IPv6 literal); when the host has no colon of its own
    the routed host has none at all. *)
Theorem C10_port_stripped (apiURL : string) (ctx : Context) (u : URL) (h p : string) :
  apiURL <> "" -> url_Parse E apiURL = Ok u -> Scheme u <> "" ->
  Host u = h +:+ ":" +:+ p -> allDigits p = true ->
  exists ctx' name,
    serverOverrideV1 E apiURL ctx = Ok ctx'
    /\ Value ctx' ContextServerVariables
       = Some (VariablesValue {[ "name" := h +:+ ":" +:+ p; "protocol" := Scheme u ]})
    /\ Value ctx' ContextOperationServerVariables
       = Some (OperationVariablesValue
                 {[ "IPRangesApiService.GetIPRanges" := {[ "name" := name ]} ]})
    /\ Hostname u = stripBrackets h
    /\ name = ipRangesName (stripBrackets h)
    /\ (strings.HasPrefix h "[" = false -> name = ipRangesName h)
    /\ (strings.ContainsByte h ":" = false -> strings.ContainsByte name ":" = false).
Proof.
  intros Hne Hp Hs Hh Hd.
  assert (Hhost : Host u <> "").
  { rewrite Hh. destruct h; discriminate. }
  assert (Hname : Hostname u = stripBrackets h).
  { unfold Hostname. rewrite Hh. now apply splitHostPort_port. }
  rewrite (serverOverrideV1_valid E _ ctx _ Hne Hp Hhost Hs).
  eexists _, (ipRangesName (Hostname u)).
  split; [reflexivity |]. split; [cbn; now rewrite Hh |]. split; [reflexivity |].
  split; [exact Hname |]. rewrite Hname. split; [reflexivity |]. split.
  - intros Hb. now rewrite (stripBrackets_plain h Hb).
  - intros Hc. now apply ipRangesName_no_colon, stripBrackets_no_byte.
Qed.

(** C9. The identity string is the provider name and version, then in
    brackets "terraform" with the SDK version and "terraform-cli" with the
    version of the CLI, then the agent of the wrapped client; it depends on
    nothing but these four strings. *)
Theorem C9_user_agent_format (clientUserAgent : string) :
  getUserAgent E clientUserAgent
  = "terraform-provider-datadog/" +:+ version_ProviderVersion E +:+
    " (terraform " +:+ meta_SDKVersionString E +:+
    "; terraform-cli " +:+ TerraformVersion E +:+ ") " +:+ clientUserAgent
  /\ (forall E' : Env,
        version_ProviderVersion E' = version_ProviderVersion E ->
        meta_SDKVersionString E' = meta_SDKVersionString E ->
        TerraformVersion E' = TerraformVersion E ->
        getUserAgent E' clientUserAgent = getUserAgent E clientUserAgent).
Proof.
  split.
  - rewrite getUserAgent_prefix. unfold userAgentPrefix.
    repeat (rewrite append_assoc; cbn [String.append]). reflexivity.
  - intros E' H1 H2 H3. rewrite !getUserAgent_prefix. unfold userAgentPrefix.
    now rewrite H1, H2, H3.
Qed.

(** C8, at a context message that holds a verb. [translateClientError] puts
    the context message into the format of [fmt.Errorf], so a percent sign in
    it is read as a directive: with the message "error creating %s" the error
    text takes the place of the verb, the body is printed by [%v] as a list of
    numbers, and the result holds neither the message as it was given nor the
    text of the body; with the message "quota at 100%%" the result holds one
    percent sign where the message has two. *)
Theorem C8_context_message_is_a_format :
  let err := V1_GenericOpenAPIError "400 Bad Request" "Forbidden" in
  let out := Error (translateClientError E err "error creating %s") in
  out = "error creating 400 Bad Request: [70 111 114 98 105 100 100 101 110]: %!s(MISSING)"
  /\ strings.Contains out "Forbidden" = false
  /\ strings.Contains out "error creating %s" = false
  /\ Error (translateClientError E err "quota at 100%%")
     = "quota at 100%: 400 Bad Request: Forbidden"
  /\ strings.Contains (Error (translateClientError E err "quota at 100%%"))
       "quota at 100%%" = false.
Proof. repeat split. Qed.

End Claims.

(** * The claims on concrete inputs *)

Lemma C5_missing_credentials_witness :
  let d := mkResourceData "" "fedcba9876543210" "" true in
  providerConfigure Sample.env d
  = ([], Err (errorString "api_key and app_key must be set unless validate = false"))
  /\ networkCalls (fst (providerConfigure Sample.env d)) = 0.
Proof.
  apply (C5_missing_credentials Sample.env (mkResourceData "" "fedcba9876543210" "" true)).
  - reflexivity.
  - left. reflexivity.
Defined.

Lemma C6_validation_skipped_witness :
  let d := mkResourceData "" "" "https://api.datadoghq.com" false in
  networkCalls (fst (providerConfigure Sample.env d)) = 0
  /\ snd (providerConfigure Sample.env d) = officialClients Sample.env d.
Proof.
  intros d.
  destruct (C6_validation_skipped Sample.env d eq_refl) as (_ & H1 & H2 & _).
  split; [exact H1 | exact H2].
Defined.

Lemma C7_endpoint_resolver_witness :
  serverOverrideV1 Sample.env "api.example.com" []
  = Err (errorString "missing protocol or host : api.example.com")
  /\ serverOverrideV2 Sample.env "://x" []
     = Err (errorString ("invalid API Url : parse " +:+ Sample.quote "://x"
                         +:+ ": missing protocol scheme")).
Proof.
  split.
  - destruct (C7_endpoint_resolver Sample.env "api.example.com" [] [])
      as (_ & H & _); [discriminate |].
    apply (H (mkURL "" "" "" "api.example.com")); [reflexivity | left; reflexivity].
  - destruct (C7_endpoint_resolver Sample.env "://x" [] [])
      as (H & _); [discriminate |].
    apply (H (url_Error ("parse " +:+ Sample.quote "://x" +:+ ": missing protocol scheme"))).
    reflexivity.
Defined.

Lemma C1_endpoint_error_after_validation_witness :
  let d := Sample.config "api.example.com" true in
  networkCalls (fst (providerConfigure Sample.env d)) = 1
  /\ snd (providerConfigure Sample.env d) = Err (url_Error "unsupported protocol scheme").
Proof.
  intros d.
  destruct (C1_endpoint_error_after_validation Sample.env d
              (errorString "missing protocol or host : api.example.com") eq_refl)
    as [_ H].
  destruct H as (H1 & _ & H3); [reflexivity | discriminate | discriminate |].
  split; [exact H1 | exact H3].
Defined.

(** C1 as the specification states it fails: for the [api_url]
    "api.example.com", which has no scheme, the keys are validated, in a
    network call, before the endpoint is looked at. *)
Lemma C1_validation_comes_first :
  ~ (forall (E : Env) (d : ResourceData) (e : error),
       serverOverrideV1 E (api_url d) (authKeys d) = Err e ->
       snd (providerConfigure E d) = Err e
       /\ networkCalls (fst (providerConfigure E d)) = 0).
Proof.
  intros H.
  destruct (H Sample.env (Sample.config "api.example.com" true)
              (errorString "missing protocol or host : api.example.com") eq_refl)
    as [_ Hn].
  vm_compute in Hn. discriminate Hn.
Qed.

Lemma C2_identity_strings_witness :
  exists config,
    snd (providerConfigure Sample.env (Sample.config "" false)) = Ok config
    /\ UserAgent (GetConfig (DatadogClientV1 config))
       = userAgentPrefix Sample.env
         +:+ "datadog-api-client-go/1.0.0-beta.9 (go go1.15; os linux; arch amd64)".
Proof.
  destruct (providerConfigure Sample.env (Sample.config "" false)) as [t [config|e]] eqn:H.
  - exists config. split; [reflexivity |].
    apply (C2_identity_strings Sample.env (Sample.config "" false) t config H).
  - vm_compute in H. discriminate H.
Defined.

(** C2 as the specification states it fails: the legacy client and the v1
    client carry different identity strings. *)
Lemma C2_identity_strings_differ :
  exists config,
    snd (providerConfigure Sample.env (Sample.config "" false)) = Ok config
    /\ ExtraHeader (CommunityClient config) !! "User-Agent"
       = Some "terraform-provider-datadog/2.12.1 (terraform 1.15.0; terraform-cli 0.13.2) datadog-api-client-go/go-datadog-api (go go1.15; os linux; arch amd64)"
    /\ UserAgent (GetConfig (DatadogClientV1 config))
       = "terraform-provider-datadog/2.12.1 (terraform 1.15.0; terraform-cli 0.13.2) datadog-api-client-go/1.0.0-beta.9 (go go1.15; os linux; arch amd64)"
    /\ ExtraHeader (CommunityClient config) !! "User-Agent"
       <> Some (UserAgent (GetConfig (DatadogClientV1 config))).
Proof.
  eexists. split; [vm_compute; reflexivity |].
  split; [vm_compute; reflexivity |]. split; [vm_compute; reflexivity |].
  vm_compute. intros H. discriminate H.
Qed.

Lemma C3_server_switch_witness :
  exists config u,
    snd (providerConfigure Sample.env (Sample.config "https://api.datadoghq.com" true))
    = Ok config
    /\ Value (AuthV1 config) ContextServerIndex = Some (IntValue 1)
    /\ Value (AuthV2 config) ContextServerVariables
       = Some (VariablesValue {[ "name" := Host u; "protocol" := Scheme u ]}).
Proof.
  destruct (providerConfigure Sample.env (Sample.config "https://api.datadoghq.com" true))
    as [t [config|e]] eqn:H.
  - destruct (C3_server_switch Sample.env
                (Sample.config "https://api.datadoghq.com" true) t config)
      as (u & _ & H1 & _ & _ & H2 & _); [discriminate | exact H |].
    exists config, u. split; [reflexivity |]. split; [exact H1 | exact H2].
  - vm_compute in H. discriminate H.
Defined.

(** C3 as the specification states it fails: the v2 context of a bootstrap
    with an [api_url] has no table of per-operation servers. *)
Lemma C3_v2_has_no_operation_routing :
  exists config,
    snd (providerConfigure Sample.env (Sample.config "https://api.datadoghq.com" true))
    = Ok config
    /\ Value (AuthV2 config) ContextOperationServerVariables = None
    /\ Value (AuthV2 config) ContextOperationServerIndices = None
    /\ Value (AuthV1 config) ContextOperationServerVariables <> None.
Proof.
  eexists. split; [vm_compute; reflexivity |].
  split; [reflexivity |]. split; [reflexivity |]. discriminate.
Qed.

Lemma C4_ip_ranges_host_witness :
  exists ctx' name,
    serverOverrideV1 Sample.env "https://app.us5.datadoghq.com" [] = Ok ctx'
    /\ Value ctx' ContextOperationServerVariables
       = Some (OperationVariablesValue
                 {[ "IPRangesApiService.GetIPRanges" := {[ "name" := name ]} ]})
    /\ name = "ip-ranges.us5.datadoghq.com".
Proof.
  destruct (C4_ip_ranges_host Sample.env "https://app.us5.datadoghq.com" []
              (mkURL "https" "" "app.us5.datadoghq.com" ""))
    as [(ctx' & name & H1 & H2 & _ & _ & _ & _ & _ & H3) _];
    [discriminate | reflexivity | discriminate | discriminate |].
  exists ctx', name. split; [exact H1 |]. split; [exact H2 |]. apply H3. reflexivity.
Defined.

Lemma C10_port_stripped_witness :
  exists ctx' name,
    serverOverrideV1 Sample.env "https://api.example.com:8080" [] = Ok ctx'
    /\ Value ctx' ContextServerVariables
       = Some (VariablesValue {[ "name" := "api.example.com:8080"; "protocol" := "https" ]})
    /\ Value ctx' ContextOperationServerVariables
       = Some (OperationVariablesValue
                 {[ "IPRangesApiService.GetIPRanges" := {[ "name" := name ]} ]})
    /\ name = "ip-ranges.example.com"
    /\ strings.ContainsByte name ":" = false.
Proof.
  destruct (C10_port_stripped Sample.env "https://api.example.com:8080" []
              (mkURL "https" "" "api.example.com:8080" "") "api.example.com" "8080")
    as (ctx' & name & H1 & H2 & H3 & _ & _ & H4 & H5);
    [discriminate | reflexivity | discriminate | reflexivity | reflexivity |].
  exists ctx', name. split; [exact H1 |]. split; [exact H2 |]. split; [exact H3 |].
  split; [apply H4; reflexivity | apply H5; reflexivity].
Defined.

Lemma C9_user_agent_format_witness :
  getUserAgent Sample.otherEnv "go-datadog-api" = getUserAgent Sample.env "go-datadog-api".
Proof.
  destruct (C9_user_agent_format Sample.env "go-datadog-api") as [_ H].
  apply (H Sample.otherEnv); reflexivity.
Defined.

(** * Further properties of the bootstrap *)

Section Outcome.

Variable E : Env.

Lemma Sprintf_validation_error (err : error) :
  Sprintf E "[ERROR] Datadog Client validation error: %v" [AError err]
  = "[ERROR] Datadog Client validation error: " +:+ Error err.
Proof. unfold Sprintf. cbn. now rewrite append_nil_r. Qed.

(** The events of the validation of the keys. *)
Lemma validateKeys_trace (c : Client) :
  fst (validateKeys E true c)
  = [LogLine "[INFO] Datadog client successfully initialized, now validating...";
     ValidateCall c;
     LogLine
       match datadogCommunity_Validate E c with
       | (_, Some err) => "[ERROR] Datadog Client validation error: " +:+ Error err
       | (false, None) => "[ERROR] Datadog Client validation error: " +:+ invalidCredentials
       | (true, None) => "[INFO] Datadog Client successfully validated."
       end].
Proof.
  unfold validateKeys.
  destruct (datadogCommunity_Validate E c) as [[] [err|]]; cbv beta iota zeta;
    rewrite ?Sprintf_validation_error; reflexivity.
Qed.

(** The result of the bootstrap, by the check of the keys, the answer of the
    service and the endpoint. *)
Lemma providerConfigure_outcome (d : ResourceData) :
  snd (providerConfigure E d)
  = if guard d then
      Err (errorString "api_key and app_key must be set unless validate = false")
    else if validate d then
      match datadogCommunity_Validate E (communityClientOf E d) with
      | (_, Some err) => Err err
      | (false, None) => Err (errors_New invalidCredentials)
      | (true, None) => officialClients E d
      end
    else officialClients E d.
Proof.
  destruct (guard d) eqn:Hg.
  - now rewrite providerConfigure_unfold, Hg.
  - rewrite (providerConfigure_run E d Hg). cbn [snd].
    destruct (validate d).
    + rewrite validateKeys_outcome.
      now destruct (datadogCommunity_Validate E (communityClientOf E d)) as [[] [err|]].
    + now rewrite validateKeys_skip.
Qed.

Lemma providerConfigure_events (d : ResourceData) :
  fst (providerConfigure E d)
  = if guard d then []
    else fst (validateKeys E (validate d) (communityClientOf E d)).
Proof.
  destruct (guard d) eqn:Hg.
  - now rewrite providerConfigure_unfold, Hg.
  - now rewrite (providerConfigure_run E d Hg).
Qed.

(** The clients are built exactly when the endpoint is absent or complete. *)
Lemma officialClients_cases (d : ResourceData) :
  (api_url d = "" /\
   officialClients E d
   = Ok (mkProviderConfiguration (communityClientOf E d) (NewAPIClient (configV1Of E))
           (NewAPIClient (configV2Of E)) (authKeys d) (authKeys d) time_Now))
  \/ (api_url d <> "" /\ exists parseErr,
        url_Parse E (api_url d) = Err parseErr
        /\ officialClients E d
           = Err (errorString ("invalid API Url : " +:+ Error parseErr)))
  \/ (api_url d <> "" /\ exists u,
        url_Parse E (api_url d) = Ok u /\ (Host u = "" \/ Scheme u = "")
        /\ officialClients E d
           = Err (errorString ("missing protocol or host : " +:+ api_url d)))
  \/ (api_url d <> "" /\ exists u config,
        url_Parse E (api_url d) = Ok u /\ Host u <> "" /\ Scheme u <> ""
        /\ officialClients E d = Ok config).
Proof.
  unfold officialClients.
  destruct (String.eqb_spec (api_url d) "") as [Hu|Hne].
  - left. split; [exact Hu |].
    now rewrite Hu, serverOverrideV1_absent, serverOverrideV2_absent.
  - right.
    destruct (url_cases E (api_url d)) as [[pe Hp]|[[u [Hp Hu]]|[u [Hp [Hh Hs]]]]].
    + left. split; [exact Hne |]. exists pe. split; [exact Hp |].
      now rewrite (serverOverrideV1_malformed E _ _ _ Hne Hp).
    + right. left. split; [exact Hne |]. exists u. split; [exact Hp |].
      split; [exact Hu |].
      now rewrite (serverOverrideV1_incomplete E _ _ _ Hne Hp Hu).
    + right. right. split; [exact Hne |].
      rewrite (serverOverrideV1_valid E _ _ _ Hne Hp Hh Hs),
        (serverOverrideV2_valid E _ _ _ Hne Hp Hh Hs).
      exists u. eexists. repeat split; assumption.
Qed.


(** X2. A bootstrap succeeds exactly when the keys pass the check of line 127,
    the service accepts them if [validate] is set, and the [api_url], if one
    is given, parses with a host and a scheme. *)
Theorem X2_success_iff (d : ResourceData) :
  (exists t config, providerConfigure E d = (t, Ok config))
  <-> guard d = false
      /\ (validate d = true ->
          datadogCommunity_Validate E (communityClientOf E d) = (true, None))
      /\ (api_url d <> "" ->
          exists u, url_Parse E (api_url d) = Ok u /\ Host u <> "" /\ Scheme u <> "").
Proof.
  split.
  - intros (t & config & H).
    pose proof (providerConfigure_outcome d) as Ho. rewrite H in Ho. cbn [snd] in Ho.
    destruct (guard d); [discriminate Ho |]. split; [reflexivity |].
    assert (Hoff : officialClients E d = Ok config /\
                   (validate d = true ->
                    datadogCommunity_Validate E (communityClientOf E d) = (true, None))).
    { destruct (validate d); [|now split].
      destruct (datadogCommunity_Validate E (communityClientOf E d)) as [[] [err|]];
        try discriminate Ho. now split. }
    destruct Hoff as [Hoff Hv]. split; [exact Hv |].
    intros Hne.
    destruct (officialClients_cases d)
      as [[Hu _]|[(_ & pe & _ & He)|[(_ & u & _ & _ & He)|(_ & u & c & Hp & Hh & Hs & _)]]].
    + contradiction.
    + rewrite He in Hoff. discriminate Hoff.
    + rewrite He in Hoff. discriminate Hoff.
    + now eauto.
  - intros (Hg & Hv & Hu).
    assert (Hoff : exists config, officialClients E d = Ok config).
    { destruct (officialClients_cases d)
        as [[_ He]|[(Hne & pe & Hp & _)|[(Hne & u & Hp & Hbad & _)|(_ & u & c & _ & _ & _ & He)]]].
      - now eauto.
      - destruct (Hu Hne) as (u & Hp' & _). rewrite Hp in Hp'. discriminate Hp'.
      - destruct (Hu Hne) as (u' & Hp' & Hh & Hs). rewrite Hp in Hp'.
        injection Hp' as <-. tauto.
      - now eauto. }
    destruct Hoff as [config Hoff].
    exists (fst (providerConfigure E d)), config.
    rewrite (surjective_pairing (providerConfigure E d)) at 1. f_equal.
    rewrite providerConfigure_outcome, Hg.
    destruct (validate d); [|exact Hoff].
    now rewrite (Hv eq_refl).
Qed.

(** X3. With [validate] set and both keys given, the answer of the service
    decides before the endpoint does: a transport error is returned as it is,
    a refusal gives the invalid-credentials error, and only accepted keys
    lead on to the clients, whatever the [api_url] is. *)
Theorem X3_validation_decides (d : ResourceData) :
  validate d = true -> api_key d <> "" -> app_key d <> "" ->
  snd (providerConfigure E d)
  = match datadogCommunity_Validate E (communityClientOf E d) with
    | (_, Some err) => Err err
    | (false, None) => Err (errorString invalidCredentials)
    | (true, None) => officialClients E d
    end.
Proof.
  intros Hv Ha Hb. rewrite providerConfigure_outcome.
  unfold guard. now rewrite Hv, (both_nonempty _ _ Ha Hb).
Qed.

(** X8. A bootstrap fails in one of five ways only: the missing keys, the
    error that the validation call returned, the refusal of the keys, an
    [api_url] that does not parse, or one without host or scheme. *)
Theorem X8_error_kinds (d : ResourceData) (t : list Event) (e : error) :
  providerConfigure E d = (t, Err e) ->
  e = errorString "api_key and app_key must be set unless validate = false"
  \/ (exists ok, datadogCommunity_Validate E (communityClientOf E d) = (ok, Some e))
  \/ e = errorString invalidCredentials
  \/ (exists parseErr, url_Parse E (api_url d) = Err parseErr
                       /\ e = errorString ("invalid API Url : " +:+ Error parseErr))
  \/ e = errorString ("missing protocol or host : " +:+ api_url d).
Proof.
  intros H. pose proof (providerConfigure_outcome d) as Ho.
  rewrite H in Ho. cbn [snd] in Ho.
  assert (Hoff : officialClients E d = Err e ->
                 (exists parseErr, url_Parse E (api_url d) = Err parseErr
                    /\ e = errorString ("invalid API Url : " +:+ Error parseErr))
                 \/ e = errorString ("missing protocol or host : " +:+ api_url d)).
  { intros He.
    destruct (officialClients_cases d)
      as [[_ Hc]|[(_ & pe & Hp & Hc)|[(_ & u & _ & _ & Hc)|(_ & u & c & _ & _ & _ & Hc)]]];
      rewrite Hc in He; try discriminate He; injection He as <-; now eauto. }
  destruct (guard d).
  - injection Ho as ->. now left.
  - destruct (validate d).
    + destruct (datadogCommunity_Validate E (communityClientOf E d)) as [[] [err|]].
      * injection Ho as ->. right. left. now eauto.
      * symmetry in Ho. destruct (Hoff Ho); tauto.
      * injection Ho as ->. right. left. now eauto.
      * injection Ho as ->. right. right. now left.
    + symmetry in Ho. destruct (Hoff Ho); tauto.
Qed.

End Outcome.

Section Clients.

Variable E : Env.

Lemma serverOverrideV1_keeps_keys (apiURL : string) (ctx ctx' : Context) :
  serverOverrideV1 E apiURL ctx = Ok ctx' ->
  Value ctx' ContextAPIKeys = Value ctx ContextAPIKeys.
Proof.
  destruct (String.eqb_spec apiURL "") as [->|Hne].
  - rewrite serverOverrideV1_absent. now intros [= <-].
  - destruct (url_cases E apiURL) as [[pe Hp]|[[u [Hp Hu]]|[u [Hp [Hh Hs]]]]].
    + now rewrite (serverOverrideV1_malformed E _ _ _ Hne Hp).
    + now rewrite (serverOverrideV1_incomplete E _ _ _ Hne Hp Hu).
    + rewrite (serverOverrideV1_valid E _ _ _ Hne Hp Hh Hs). now intros [= <-].
Qed.

Lemma serverOverrideV2_keeps_keys (apiURL : string) (ctx ctx' : Context) :
  serverOverrideV2 E apiURL ctx = Ok ctx' ->
  Value ctx' ContextAPIKeys = Value ctx ContextAPIKeys.
Proof.
  destruct (String.eqb_spec apiURL "") as [->|Hne].
  - rewrite serverOverrideV2_absent. now intros [= <-].
  - destruct (url_cases E apiURL) as [[pe Hp]|[[u [Hp Hu]]|[u [Hp [Hh Hs]]]]].
    + now rewrite (serverOverrideV2_malformed E _ _ _ Hne Hp).
    + now rewrite (serverOverrideV2_incomplete E _ _ _ Hne Hp Hu).
    + rewrite (serverOverrideV2_valid E _ _ _ Hne Hp Hh Hs). now intros [= <-].
Qed.

Lemma SetUnstableOperationEnabled_lookup (c : Configuration) (o op : string) (b : bool) :
  unstableOperations (SetUnstableOperationEnabled c o b) !! op
  = if decide (o = op) then (fun _ => b) <$> unstableOperations c !! op
    else unstableOperations c !! op.
Proof.
  unfold SetUnstableOperationEnabled.
  destruct (unstableOperations c !! o) eqn:Ho; cbn [unstableOperations].
  - case_decide as Heq.
    + subst op. now rewrite lookup_insert_eq, Ho.
    + now rewrite lookup_insert_ne.
  - case_decide as Heq; [|reflexivity]. subst op. now rewrite Ho.
Qed.

(** X4. After a successful bootstrap the legacy client holds the keys of the
    configuration, the [api_url] as it was given (the default of the library
    when there is none) as its base URL, and an HTTP client that logs under
    the name "Datadog"; it is the client that the validation call went
    through. *)
Theorem X4_legacy_client (d : ResourceData) (t : list Event)
    (config : ProviderConfiguration) :
  providerConfigure E d = (t, Ok config) ->
  baseUrl (CommunityClient config)
  = (if String.eqb (api_url d) "" then datadogCommunity_baseUrl E else api_url d)
  /\ clientApiKey (CommunityClient config) = api_key d
  /\ clientAppKey (CommunityClient config) = app_key d
  /\ HttpClient (CommunityClient config)
     = mkHttpClient (loggingTransport "Datadog" pooledTransport)
  /\ (forall c, In (ValidateCall c) t -> c = CommunityClient config).
Proof.
  intros H. pose proof (providerConfigure_events E d) as Ht. rewrite H in Ht. cbn [fst] in Ht.
  destruct (providerConfigure_success E d t config H) as (a1 & a2 & _ & _ & ->).
  cbn [CommunityClient].
  split; [unfold communityClientOf; now destruct (String.eqb (api_url d) "") |].
  split; [unfold communityClientOf; now destruct (String.eqb (api_url d) "") |].
  split; [unfold communityClientOf; now destruct (String.eqb (api_url d) "") |].
  split; [reflexivity |].
  intros c Hin. subst t. destruct (guard d); [destruct Hin |].
  destruct (validate d).
  - rewrite validateKeys_trace in Hin.
    destruct Hin as [Hc|[Hc|[Hc|[]]]]; try discriminate Hc. now injection Hc as <-.
  - rewrite validateKeys_skip in Hin.
    destruct Hin as [Hc|[Hc|[]]]; discriminate Hc.
Qed.

(** X5. After a successful bootstrap both contexts answer the lookup of the
    API keys with the two keys of the configuration, under the names
    apiKeyAuth and appKeyAuth, whether an [api_url] was given or not. *)
Theorem X5_keys_in_contexts (d : ResourceData) (t : list Event)
    (config : ProviderConfiguration) :
  providerConfigure E d = (t, Ok config) ->
  Value (AuthV1 config) ContextAPIKeys
  = Some (APIKeysValue {[ "apiKeyAuth" := mkAPIKey (api_key d) "";
                          "appKeyAuth" := mkAPIKey (app_key d) "" ]})
  /\ Value (AuthV2 config) ContextAPIKeys
     = Some (APIKeysValue {[ "apiKeyAuth" := mkAPIKey (api_key d) "";
                             "appKeyAuth" := mkAPIKey (app_key d) "" ]}).
Proof.
  intros H.
  destruct (providerConfigure_success E d t config H) as (a1 & a2 & H1 & H2 & ->).
  cbn [AuthV1 AuthV2].
  rewrite (serverOverrideV1_keeps_keys _ _ _ H1), (serverOverrideV2_keeps_keys _ _ _ H2).
  split; reflexivity.
Qed.

(** X6. Without an [api_url] a successful bootstrap leaves both contexts with
    the keys alone: no server index, no server variables and no per-operation
    entry, so the default servers of the library apply. *)
Theorem X6_default_routing (d : ResourceData) (t : list Event)
    (config : ProviderConfiguration) :
  api_url d = "" ->
  providerConfigure E d = (t, Ok config) ->
  AuthV1 config = authKeys d
  /\ AuthV2 config = authKeys d
  /\ (forall k, k <> ContextAPIKeys ->
        Value (AuthV1 config) k = None /\ Value (AuthV2 config) k = None).
Proof.
  intros Hu H.
  destruct (providerConfigure_success E d t config H) as (a1 & a2 & H1 & H2 & ->).
  rewrite Hu, serverOverrideV1_absent in H1. rewrite Hu, serverOverrideV2_absent in H2.
  injection H1 as <-. injection H2 as <-. cbn [AuthV1 AuthV2].
  split; [reflexivity |]. split; [reflexivity |].
  intros k Hk. destruct k; try contradiction; split; reflexivity.
Qed.

(** X7. Once the [api_url] block of the v1 client has succeeded, that of the
    v2 client cannot fail; started from the same context, the v1 context is
    the v2 context with the two per-operation entries on top, so the two
    answer every other lookup alike. *)
Theorem X7_v2_block_follows_v1 (apiURL : string) (ctx c1 : Context) :
  serverOverrideV1 E apiURL ctx = Ok c1 ->
  exists c2,
    serverOverrideV2 E apiURL ctx = Ok c2
    /\ (apiURL = "" -> c1 = ctx /\ c2 = ctx)
    /\ (apiURL <> "" ->
        exists variables indices,
          c1 = (ContextOperationServerVariables, variables)
               :: (ContextOperationServerIndices, indices) :: c2)
    /\ (forall k, k <> ContextOperationServerVariables ->
                  k <> ContextOperationServerIndices ->
                  Value c1 k = Value c2 k).
Proof.
  intros H1.
  destruct (String.eqb_spec apiURL "") as [->|Hne].
  - rewrite serverOverrideV1_absent in H1. injection H1 as <-.
    exists ctx. rewrite serverOverrideV2_absent. repeat split; congruence.
  - destruct (url_cases E apiURL) as [[pe Hp]|[[u [Hp Hu]]|[u [Hp [Hh Hs]]]]].
    + rewrite (serverOverrideV1_malformed E _ _ _ Hne Hp) in H1. discriminate H1.
    + rewrite (serverOverrideV1_incomplete E _ _ _ Hne Hp Hu) in H1. discriminate H1.
    + rewrite (serverOverrideV1_valid E _ _ _ Hne Hp Hh Hs) in H1. injection H1 as <-.
      rewrite (serverOverrideV2_valid E _ _ _ Hne Hp Hh Hs).
      eexists. split; [reflexivity |]. split; [contradiction |].
      split; [intros _; now eauto |].
      intros k Hk1 Hk2. destruct k; try contradiction; reflexivity.
Qed.

(** X9. After a successful bootstrap both configurations have the debug flag
    of the log level. In the v1 configuration each of the four log index
    operations that the library declares unstable is enabled, no operation is
    added and every other one keeps the setting of the library; the v2
    configuration keeps the settings of the library. *)
Theorem X9_configurations (d : ResourceData) (t : list Event)
    (config : ProviderConfiguration) :
  providerConfigure E d = (t, Ok config) ->
  Debug (GetConfig (DatadogClientV1 config)) = logging_IsDebugOrHigher E
  /\ Debug (GetConfig (DatadogClientV2 config)) = logging_IsDebugOrHigher E
  /\ (forall op, In op enabledOperations ->
        unstableOperations (GetConfig (DatadogClientV1 config)) !! op
        = (fun _ => true) <$> unstableOperations (datadogV1_NewConfiguration E) !! op)
  /\ (forall op, ~ In op enabledOperations ->
        unstableOperations (GetConfig (DatadogClientV1 config)) !! op
        = unstableOperations (datadogV1_NewConfiguration E) !! op)
  /\ unstableOperations (GetConfig (DatadogClientV2 config))
     = unstableOperations (datadogV2_NewConfiguration E).
Proof.
  intros H.
  destruct (providerConfigure_success E d t config H) as (a1 & a2 & _ & _ & ->).
  cbn [DatadogClientV1 DatadogClientV2 NewAPIClient GetConfig].
  split; [reflexivity |]. split; [reflexivity |].
  assert (Hl : forall op,
    unstableOperations (configV1Of E) !! op
    = if decide ("UpdateLogsIndexOrder" = op \/ "UpdateLogsIndex" = op
                 \/ "ListLogIndexes" = op \/ "GetLogsIndex" = op)
      then (fun _ => true) <$> unstableOperations (datadogV1_NewConfiguration E) !! op
      else unstableOperations (datadogV1_NewConfiguration E) !! op).
  { intros op. unfold configV1Of. cbn [setDebug setUserAgent unstableOperations].
    rewrite !SetUnstableOperationEnabled_lookup.
    repeat case_decide; try tauto; subst; try discriminate;
      try reflexivity; exfalso; tauto. }
  split; [|split; [|reflexivity]].
  - intros op Hin. rewrite Hl. case_decide as Hd; [reflexivity |].
    exfalso. apply Hd. cbn in Hin. tauto.
  - intros op Hin. rewrite Hl. case_decide as Hd; [|reflexivity].
    exfalso. apply Hin. cbn. tauto.
Qed.


End Clients.

(** * Further properties of the helpers *)

Lemma first_label (host : string) :
  1 <= strings.CountByte host "." ->
  exists label rest,
    host = label +:+ "." +:+ rest
    /\ strings.ContainsByte label "." = false
    /\ strings.CountByte host "." = S (strings.CountByte rest ".").
Proof.
  induction host as [|c host IH]; cbn [strings.CountByte]; [lia |].
  destruct (Ascii.eqb_spec c ".") as [->|Hne]; intros H.
  - exists "", host. repeat split.
  - destruct (IH H) as (label & rest & -> & Hl & Hc).
    exists (String c label), rest. repeat split; [|exact Hc].
    cbn. apply Ascii.eqb_neq in Hne. now rewrite Hne, Hl.
Qed.

Section Helpers.

Variable E : Env.

Lemma Sprintf_url_error (msg : string) (err : error) :
  strings.ContainsByte msg "%" = false ->
  Sprintf E (msg +:+ " (url.Error): %s") [AError err]
  = msg +:+ " (url.Error): " +:+ Error err.
Proof.
  intros H. unfold Sprintf. rewrite (doPrintf_literal _ _ _ _ _ H). cbn.
  now rewrite append_nil_r.
Qed.

Lemma Sprintf_plain_error (msg text : string) :
  strings.ContainsByte msg "%" = false ->
  Sprintf E (msg +:+ ": %s") [AString text] = msg +:+ ": " +:+ text.
Proof.
  intros H. unfold Sprintf. rewrite (doPrintf_literal _ _ _ _ _ H). cbn.
  now rewrite append_nil_r.
Qed.

Lemma default_message_plain (msg : string) :
  strings.ContainsByte msg "%" = false ->
  strings.ContainsByte (if String.eqb msg "" then "an error occurred" else msg) "%" = false.
Proof. intros H. now destruct (String.eqb msg ""). Qed.

Lemma default_message_nonempty (msg : string) :
  (if String.eqb msg "" then "an error occurred" else msg) <> "".
Proof. destruct (String.eqb_spec msg ""); [discriminate | assumption]. Qed.

(** X10. For a context message without a percent sign, the translated error
    reads: the message (or "an error occurred" when it is empty), then for an
    API error of either generation the error text and the body, for a URL
    error the mark "(url.Error)" and the error text, and for any other error
    its text. Percent signs in the error text and in the body are copied as
    they are, and the result is never empty. *)
Theorem X10_translation_of_plain_messages (err : error) (msg : string) :
  strings.ContainsByte msg "%" = false ->
  translateClientError E err msg
  = errorString
      ((if String.eqb msg "" then "an error occurred" else msg) +:+
       match err with
       | V1_GenericOpenAPIError text body
       | V2_GenericOpenAPIError text body => ": " +:+ text +:+ ": " +:+ body
       | url_Error text => " (url.Error): " +:+ text
       | errorString text | otherError text => ": " +:+ text
       end)
  /\ Error (translateClientError E err msg) <> "".
Proof.
  intros H. pose proof (default_message_plain msg H) as H'.
  assert (Heq : translateClientError E err msg
    = errorString
        ((if String.eqb msg "" then "an error occurred" else msg) +:+
         match err with
         | V1_GenericOpenAPIError text body
         | V2_GenericOpenAPIError text body => ": " +:+ text +:+ ": " +:+ body
         | url_Error text => " (url.Error): " +:+ text
         | errorString text | otherError text => ": " +:+ text
         end)).
  { unfold translateClientError, Errorf. destruct err as [x|x|x b|x b|x];
      rewrite ?(doPrintf_api_error E _ _ _ H'), ?(Sprintf_url_error _ _ H'),
        ?(Sprintf_plain_error _ _ H'); reflexivity. }
  split; [exact Heq |]. rewrite Heq. cbn [Error].
  pose proof (default_message_nonempty msg) as Hne.
  destruct (if String.eqb msg "" then "an error occurred" else msg);
    [contradiction | discriminate].
Qed.

(** X11. A translated error is a plain error: translating it again, under a
    message without a percent sign, puts the new message in front of the whole
    earlier text, whatever the first message and the first error were; the
    body of an API error is not read a second time. *)
Theorem X11_translation_composes (err : error) (first second : string) :
  strings.ContainsByte second "%" = false ->
  translateClientError E (translateClientError E err first) second
  = errorString ((if String.eqb second "" then "an error occurred" else second)
                 +:+ ": " +:+ Error (translateClientError E err first)).
Proof.
  intros H. pose proof (default_message_plain second H) as H'.
  assert (Hplain : exists text, translateClientError E err first = errorString text).
  { unfold translateClientError, Errorf. destruct err; now eauto. }
  destruct Hplain as [text ->]. cbn [Error].
  unfold translateClientError, Errorf. cbn [Error].
  now rewrite (Sprintf_plain_error _ _ H').
Qed.

(** X12. The identity string keeps the agent of the wrapped client apart:
    two agents give the same identity string only when they are the same. *)
Theorem X12_user_agent_injective (a b : string) :
  getUserAgent E a = getUserAgent E b -> a = b.
Proof.
  rewrite !getUserAgent_prefix. intros H. exact (inj (String.append _) _ _ H).
Qed.

(** X15. When the parsed host has no colon and no opening square bracket, the
    host of the server variables and the host name that the IP ranges host is
    made from are the same string. *)
Theorem X15_host_without_port (apiURL : string) (ctx : Context) (u : URL) :
  apiURL <> "" -> url_Parse E apiURL = Ok u -> Host u <> "" -> Scheme u <> "" ->
  strings.ContainsByte (Host u) ":" = false ->
  strings.HasPrefix (Host u) "[" = false ->
  Hostname u = Host u
  /\ exists ctx',
       serverOverrideV1 E apiURL ctx = Ok ctx'
       /\ Value ctx' ContextServerVariables
          = Some (VariablesValue {[ "name" := Host u; "protocol" := Scheme u ]})
       /\ Value ctx' ContextOperationServerVariables
          = Some (OperationVariablesValue
                    {[ "IPRangesApiService.GetIPRanges" :=
                         {[ "name" := ipRangesName (Host u) ]} ]}).
Proof.
  intros Hne Hp Hh Hs Hc Hb.
  assert (Hname : Hostname u = Host u).
  { unfold Hostname, splitHostPort.
    rewrite (LastIndexByte_absent _ _ Hc). cbn [fst].
    now apply stripBrackets_plain. }
  split; [exact Hname |].
  rewrite (serverOverrideV1_valid E _ ctx _ Hne Hp Hh Hs), Hname.
  eexists. repeat split.
Qed.

End Helpers.

(** X13. For a host name with at least one dot, making the IP ranges host of
    an IP ranges host changes nothing: the label "ip-ranges" that was put in
    front is the one that is dropped. *)
Theorem X13_ip_ranges_idempotent (host : string) :
  1 <= strings.CountByte host "." ->
  ipRangesName (ipRangesName host) = ipRangesName host.
Proof.
  intros H.
  assert (Hstep : forall rest, 1 <= strings.CountByte rest "." ->
                  ipRangesName ("ip-ranges." +:+ rest) = "ip-ranges." +:+ rest).
  { intros rest Hr. now apply (ipRangesName_long "ip-ranges" rest). }
  destruct (Nat.le_gt_cases (strings.CountByte host ".") 1) as [Hle|Hgt].
  - rewrite (ipRangesName_short host Hle). now apply Hstep.
  - destruct (first_label host H) as (label & rest & -> & Hl & Hc).
    assert (Hr : 1 <= strings.CountByte rest ".") by lia.
    rewrite (ipRangesName_long label rest Hl Hr). now apply Hstep.
Qed.


(** X16. Each of the options api_key, app_key and api_url is optional and
    takes its default from the environment: the value of the variable with the
    DATADOG_ name when it is not empty, else that of the variable with the
    DD_ name when it is not empty, else none; an empty variable counts as
    unset. The option validate defaults to true whatever the environment. *)
Theorem X16_schema_defaults (getenv : string -> string) (name long short : string) :
  In (name, long, short) envNames ->
  (exists s,
     providerSchema !! name = Some s
     /\ Optional s = true
     /\ DefaultValue s getenv
        = if negb (String.eqb (getenv long) "") then Some (StringValue (getenv long))
          else if negb (String.eqb (getenv short) "") then Some (StringValue (getenv short))
          else None)
  /\ (exists s,
        providerSchema !! "validate" = Some s
        /\ Optional s = true
        /\ DefaultValue s getenv = Some (BoolValue true)).
Proof.
  intros Hin. split.
  - destruct Hin as [Heq|[Heq|[Heq|[]]]]; injection Heq as <- <- <-;
      eexists; (split; [vm_compute; reflexivity |]); split; reflexivity.
  - eexists. split; [vm_compute; reflexivity |]. split; reflexivity.
Qed.

(** * The further properties on concrete inputs *)

Lemma X3_validation_decides_witness :
  snd (providerConfigure Sample.otherEnv (Sample.config "https://api.datadoghq.com" true))
  = Err (errorString invalidCredentials).
Proof.
  apply (X3_validation_decides Sample.otherEnv
           (Sample.config "https://api.datadoghq.com" true));
    [reflexivity | discriminate | discriminate].
Defined.

Lemma X8_error_kinds_witness :
  let d := Sample.config "api.example.com" false in
  let e := errorString "missing protocol or host : api.example.com" in
  e = errorString "api_key and app_key must be set unless validate = false"
  \/ (exists ok,
        datadogCommunity_Validate Sample.env (communityClientOf Sample.env d) = (ok, Some e))
  \/ e = errorString invalidCredentials
  \/ (exists parseErr, url_Parse Sample.env (api_url d) = Err parseErr
                       /\ e = errorString ("invalid API Url : " +:+ Error parseErr))
  \/ e = errorString ("missing protocol or host : " +:+ api_url d).
Proof.
  intros d e.
  apply (X8_error_kinds Sample.env d
           [LogLine "[INFO] Skipping key validation (validate = false)";
            LogLine "[INFO] Datadog Client successfully validated."] e).
  reflexivity.
Defined.

Lemma X4_legacy_client_witness :
  exists config,
    snd (providerConfigure Sample.env (Sample.config "https://api.datadoghq.eu/" true))
    = Ok config
    /\ baseUrl (CommunityClient config) = "https://api.datadoghq.eu/"
    /\ clientApiKey (CommunityClient config) = "0123456789abcdef".
Proof.
  destruct (providerConfigure Sample.env (Sample.config "https://api.datadoghq.eu/" true))
    as [t [config|e]] eqn:H.
  - destruct (X4_legacy_client Sample.env _ t config H) as (H1 & H2 & _).
    exists config. split; [reflexivity |]. split; [exact H1 | exact H2].
  - vm_compute in H. discriminate H.
Defined.

Lemma X5_keys_in_contexts_witness :
  exists config,
    snd (providerConfigure Sample.env (Sample.config "https://api.datadoghq.eu/" false))
    = Ok config
    /\ Value (AuthV1 config) ContextAPIKeys
       = Some (APIKeysValue {[ "apiKeyAuth" := mkAPIKey "0123456789abcdef" "";
                               "appKeyAuth" := mkAPIKey "fedcba9876543210" "" ]}).
Proof.
  destruct (providerConfigure Sample.env (Sample.config "https://api.datadoghq.eu/" false))
    as [t [config|e]] eqn:H.
  - destruct (X5_keys_in_contexts Sample.env _ t config H) as (H1 & _).
    exists config. split; [reflexivity | exact H1].
  - vm_compute in H. discriminate H.
Defined.

Lemma X6_default_routing_witness :
  exists config,
    snd (providerConfigure Sample.env (Sample.config "" true)) = Ok config
    /\ Value (AuthV1 config) ContextServerIndex = None
    /\ Value (AuthV2 config) ContextServerIndex = None.
Proof.
  destruct (providerConfigure Sample.env (Sample.config "" true))
    as [t [config|e]] eqn:H.
  - destruct (X6_default_routing Sample.env (Sample.config "" true) t config eq_refl H)
      as (_ & _ & H3).
    exists config. split; [reflexivity |].
    apply (H3 ContextServerIndex). discriminate.
  - vm_compute in H. discriminate H.
Defined.

Lemma X7_v2_block_follows_v1_witness :
  exists c2, serverOverrideV2 Sample.env "https://api.datadoghq.com" [] = Ok c2.
Proof.
  destruct (serverOverrideV1 Sample.env "https://api.datadoghq.com" []) as [c1|e] eqn:H.
  - destruct (X7_v2_block_follows_v1 Sample.env _ _ c1 H) as (c2 & H2 & _).
    exists c2. exact H2.
  - vm_compute in H. discriminate H.
Defined.

Lemma X9_configurations_witness :
  exists config,
    snd (providerConfigure Sample.env (Sample.config "" false)) = Ok config
    /\ unstableOperations (GetConfig (DatadogClientV1 config)) !! "GetLogsIndex" = Some true
    /\ unstableOperations (GetConfig (DatadogClientV1 config)) !! "GetSLOHistory" = None.
Proof.
  destruct (providerConfigure Sample.env (Sample.config "" false))
    as [t [config|e]] eqn:H.
  - destruct (X9_configurations Sample.env _ t config H) as (_ & _ & H3 & H4 & _).
    exists config. split; [reflexivity |]. split.
    + apply (H3 "GetLogsIndex"). left. reflexivity.
    + apply (H4 "GetSLOHistory"). intros [Hc|[Hc|[Hc|[Hc|[]]]]]; discriminate Hc.
  - vm_compute in H. discriminate H.
Defined.


Lemma X10_translation_of_plain_messages_witness :
  translateClientError Sample.env (url_Error "dial tcp: i/o timeout") "error getting monitor"
  = errorString "error getting monitor (url.Error): dial tcp: i/o timeout".
Proof.
  apply (X10_translation_of_plain_messages Sample.env
           (url_Error "dial tcp: i/o timeout") "error getting monitor").
  reflexivity.
Defined.

Lemma X11_translation_composes_witness :
  translateClientError Sample.env
    (translateClientError Sample.env
       (V1_GenericOpenAPIError "400 Bad Request" "Forbidden") "error creating %s")
    "giving up"
  = errorString "giving up: error creating 400 Bad Request: [70 111 114 98 105 100 100 101 110]: %!s(MISSING)".
Proof.
  apply (X11_translation_composes Sample.env
           (V1_GenericOpenAPIError "400 Bad Request" "Forbidden")
           "error creating %s" "giving up").
  reflexivity.
Defined.

Lemma X12_user_agent_injective_witness :
  "go-" +:+ "datadog-api" = "go-datadog-api".
Proof.
  apply (X12_user_agent_injective Sample.env ("go-" +:+ "datadog-api") "go-datadog-api").
  reflexivity.
Defined.

Lemma X13_ip_ranges_idempotent_witness :
  ipRangesName (ipRangesName "app.us5.datadoghq.com") = ipRangesName "app.us5.datadoghq.com".
Proof.
  apply (X13_ip_ranges_idempotent "app.us5.datadoghq.com"). vm_compute. lia.
Defined.

Lemma X15_host_without_port_witness :
  exists ctx',
    serverOverrideV1 Sample.env "https://api.datadoghq.com" [] = Ok ctx'
    /\ Value ctx' ContextOperationServerVariables
       = Some (OperationVariablesValue
                 {[ "IPRangesApiService.GetIPRanges" :=
                      {[ "name" := ipRangesName "api.datadoghq.com" ]} ]}).
Proof.
  destruct (X15_host_without_port Sample.env "https://api.datadoghq.com" []
              (mkURL "https" "" "api.datadoghq.com" ""))
    as (_ & ctx' & H1 & _ & H3);
    [discriminate | reflexivity | discriminate | discriminate | reflexivity | reflexivity |].
  exists ctx'. split; [exact H1 | exact H3].
Defined.

Lemma X16_schema_defaults_witness :
  exists s,
    providerSchema !! "api_key" = Some s
    /\ DefaultValue s sampleGetenv = Some (StringValue "0123456789abcdef").
Proof.
  destruct (X16_schema_defaults sampleGetenv "api_key" "DATADOG_API_KEY" "DD_API_KEY")
    as [(s & H1 & _ & H2) _]; [left; reflexivity |].
  exists s. split; [exact H1 | exact H2].
Defined.
